(** * Agent-CLI: the change applier, the JSON extractor and the decision loop

    A shallow embedding of [src/applier.py] and of [extract_json] and
    [handle] from [src/main.py], with the properties the specification
    states about them.

    Python [str] values are lists of characters; the filesystem is a finite
    map from canonical paths to nodes, seen through the [pathlib] calls the
    code makes; exceptions are values of an error type threaded through a
    small state-and-error monad. *)

From Stdlib Require Import List Ascii String Bool Arith ZArith Lia.
From stdpp Require Import base option list gmap strings.
Import ListNotations.

Set Default Proof Using "Type".

(** ** Python strings *)

Abbreviation text := (list ascii).

Module Py.

(** A string literal as a Python [str]. *)
Definition str (s : string) : text := list_ascii_of_string s.

Definition ch_eqb (a b : ascii) : bool := Ascii.eqb a b.

Fixpoint text_eqb (s t : text) : bool :=
  match s, t with
  | [], [] => true
  | a :: s', b :: t' => ch_eqb a b && text_eqb s' t'
  | _, _ => false
  end.

(** [s.startswith(p)] *)
Fixpoint startswith (p s : text) : bool :=
  match p, s with
  | [], _ => true
  | a :: p', b :: s' => ch_eqb a b && startswith p' s'
  | _ :: _, [] => false
  end.

(** [sub in s] *)
Fixpoint contains (sub s : text) : bool :=
  startswith sub s ||
  match s with
  | [] => false
  | _ :: s' => contains sub s'
  end.

(** The number of positions of [s] at which [sub] occurs. *)
Fixpoint occurrences (sub s : text) : nat :=
  (if startswith sub s then 1 else 0) +
  match s with
  | [] => 0
  | _ :: s' => occurrences sub s'
  end.

(** [s.replace(old, new, 1)]: the leftmost occurrence only. *)
Fixpoint replace_first (old new s : text) : text :=
  if startswith old s then new ++ skipn (length old) s
  else match s with
       | [] => []
       | a :: s' => a :: replace_first old new s'
       end.

(** [s.replace(old, new)] for a non-empty [old]: every occurrence, left to
    right, without overlap.  [fuel] bounds the characters still to skip
    after a match. *)
Fixpoint replace_all_from (old new : text) (skip : nat) (s : text) : text :=
  match s with
  | [] => []
  | a :: s' =>
      match skip with
      | S k => replace_all_from old new k s'
      | 0 =>
          if startswith old s
          then new ++ replace_all_from old new (length old - 1) s'
          else a :: replace_all_from old new 0 s'
      end
  end.

Definition replace_all (old new s : text) : text :=
  replace_all_from old new 0 s.

(** [s.find(sub)], with [None] for Python's [-1]. *)
Fixpoint find (sub s : text) : option nat :=
  if startswith sub s then Some 0
  else match s with
       | [] => None
       | _ :: s' => option_map S (find sub s')
       end.

(** [s.rfind(sub)], with [None] for Python's [-1]. *)
Fixpoint rfind (sub s : text) : option nat :=
  match s with
  | [] => if startswith sub [] then Some 0 else None
  | _ :: s' =>
      match rfind sub s' with
      | Some i => Some (S i)
      | None => if startswith sub s then Some 0 else None
      end
  end.

(** [s[a:b]] for [0 <= a] and [0 <= b]; empty when [b <= a]. *)
Definition slice (s : text) (a b : nat) : text := skipn a (firstn b s).

(** [s[a:]] *)
Definition slice_from (s : text) (a : nat) : text := skipn a s.

(** [s[i]] for an index in range. *)
Definition char_at (s : text) (i : nat) : option ascii := nth_error s i.

(** [s.split(sep)] for a non-empty separator: the pieces between the
    occurrences of [sep], at least one piece. *)
Fixpoint split_from (sep : text) (skip : nat) (cur : text) (s : text)
  : list text :=
  match s with
  | [] => [rev cur]
  | a :: s' =>
      match skip with
      | S k => split_from sep k cur s'
      | 0 =>
          if startswith sep s
          then rev cur :: split_from sep (length sep - 1) [] s'
          else split_from sep 0 (a :: cur) s'
      end
  end.

Definition split (sep s : text) : list text := split_from sep 0 [] s.

(** Python's ASCII whitespace, as [str.strip()] removes it. *)
Definition is_space (c : ascii) : bool :=
  let n := nat_of_ascii c in
  (n =? 32) || ((9 <=? n) && (n <=? 13)) || ((28 <=? n) && (n <=? 31)).

Fixpoint lstrip (s : text) : text :=
  match s with
  | [] => []
  | a :: s' => if is_space a then lstrip s' else s
  end.

(** [s.strip()] *)
Definition strip (s : text) : text := rev (lstrip (rev (lstrip s))).

Definition upper_char (c : ascii) : ascii :=
  let n := nat_of_ascii c in
  if (97 <=? n) && (n <=? 122) then ascii_of_nat (n - 32) else c.

Definition lower_char (c : ascii) : ascii :=
  let n := nat_of_ascii c in
  if (65 <=? n) && (n <=? 90) then ascii_of_nat (n + 32) else c.

(** [s.upper()] and [s.lower()] on ASCII letters. *)
Definition upper (s : text) : text := map upper_char s.
Definition lower (s : text) : text := map lower_char s.

End Py.

(** ** Results and exceptions *)

Inductive OSError :=
| FileNotFoundError
| NotADirectoryError
| FileExistsError
| IsADirectoryError.

Inductive exn :=
| OSErr (e : OSError)
| RuntimeError (msg : text).

Inductive result (E A : Type) :=
| Ok (a : A)
| Err (e : E).
Arguments Ok {E A} a.
Arguments Err {E A} e.

(** ** The filesystem, as [pathlib] shows it

    A path is the list of its components ([PurePath.parts]); the working
    directory is the root of the modelled tree.  The store maps the
    canonical path of every file and directory below the root to its node;
    the root itself is always a directory. *)

Inductive node :=
| File (content : text)
| Dir.

Module FS.

Abbreviation path := (list text).
Abbreviation t := (gmap (list text) node).

Definition dotdot : text := Py.str "..".
Definition dot : text := Py.str ".".
Definition slash : text := Py.str "/".

(** [Path(s)]: the components between slashes; empty components and [.]
    are dropped, [..] is kept. *)
Definition Path (s : text) : path :=
  filter (fun x => x ≠ [] ∧ x ≠ dot) (Py.split slash s).

(** [p.parent] *)
Definition parent (p : path) : path := removelast p.

Definition node_at (fs : t) (cp : path) : option node :=
  match cp with
  | [] => Some Dir
  | _ => fs !! cp
  end.

(** Walk through directories: every component must name an existing
    directory; [..] steps to the parent (the root is its own parent). *)
Fixpoint walk (fs : t) (cur : path) (comps : path) : result OSError path :=
  match comps with
  | [] => Ok cur
  | x :: rest =>
      if decide (x = dotdot) then walk fs (removelast cur) rest
      else match fs !! (cur ++ [x]) with
           | Some Dir => walk fs (cur ++ [x]) rest
           | Some (File _) => Err NotADirectoryError
           | None => Err FileNotFoundError
           end
  end.

(** The canonical path a path names: its directory part is walked, its
    last component need not exist. *)
Definition locate (fs : t) (p : path) : result OSError path :=
  match p with
  | [] => Ok []
  | _ =>
      match walk fs [] (removelast p) with
      | Err e => Err e
      | Ok cur =>
          let x := List.last p [] in
          Ok (if decide (x = dotdot) then removelast cur else cur ++ [x])
      end
  end.

(** [os.stat] *)
Definition stat (fs : t) (p : path) : result OSError node :=
  match locate fs p with
  | Err e => Err e
  | Ok cp =>
      match node_at fs cp with
      | Some n => Ok n
      | None => Err FileNotFoundError
      end
  end.

(** [p.exists()] *)
Definition exists_ (fs : t) (p : path) : bool :=
  match stat fs p with
  | Ok _ => true
  | Err _ => false
  end.

(** [p.is_dir()] *)
Definition is_dir (fs : t) (p : path) : bool :=
  match stat fs p with
  | Ok Dir => true
  | _ => false
  end.

(** [p.read_text()] *)
Definition read_text (fs : t) (p : path) : result OSError text :=
  match stat fs p with
  | Ok (File c) => Ok c
  | Ok Dir => Err IsADirectoryError
  | Err e => Err e
  end.

(** [p.write_text(data)]: the whole file is rewritten. *)
Definition write_text (fs : t) (p : path) (data : text) : result OSError t :=
  match locate fs p with
  | Err e => Err e
  | Ok cp =>
      match node_at fs cp with
      | Some Dir => Err IsADirectoryError
      | _ => Ok (<[cp := File data]> fs)
      end
  end.

(** [os.mkdir(p)] *)
Definition os_mkdir (fs : t) (p : path) : result OSError t :=
  match locate fs p with
  | Err e => Err e
  | Ok cp =>
      match node_at fs cp with
      | Some _ => Err FileExistsError
      | None => Ok (<[cp := Dir]> fs)
      end
  end.

(** [p.mkdir(parents=False, exist_ok=True)] *)
Definition mkdir_exist_ok (fs : t) (p : path) : result OSError t :=
  match os_mkdir fs p with
  | Ok fs' => Ok fs'
  | Err FileNotFoundError => Err FileNotFoundError
  | Err e => if is_dir fs p then Ok fs else Err e
  end.

(** [p.mkdir(parents=True, exist_ok=True)], on the reversed components:
    when a directory on the way is missing, the parent is made first. *)
Fixpoint mkdir_rev (fs : t) (rp : path) : result OSError t :=
  match os_mkdir fs (rev rp) with
  | Ok fs' => Ok fs'
  | Err FileNotFoundError =>
      match rp with
      | [] => Err FileNotFoundError
      | _ :: rp' =>
          match mkdir_rev fs rp' with
          | Ok fs1 => mkdir_exist_ok fs1 (rev rp)
          | Err e => Err e
          end
      end
  | Err e => if is_dir fs (rev rp) then Ok fs else Err e
  end.

Definition mkdir_parents (fs : t) (p : path) : result OSError t :=
  mkdir_rev fs (rev p).

End FS.

(** ** [applier.py] *)

Record Change := {
  file : text;
  original : text;
  edited : text
}.

Module Applier.

(** Computations on the filesystem that may raise. *)
Definition M (A : Type) : Type := FS.t -> result exn A * FS.t.

Definition ret {A} (a : A) : M A := fun fs => (Ok a, fs).
Definition raise {A} (e : exn) : M A := fun fs => (Err e, fs).
Definition bind {A B} (m : M A) (k : A -> M B) : M B :=
  fun fs =>
    match m fs with
    | (Ok a, fs') => k a fs'
    | (Err e, fs') => (Err e, fs')
    end.

#[global] Instance M_ret : MRet M := @ret.
#[global] Instance M_bind : MBind M := fun A B k m => bind m k.

Definition mkdir_parents (p : FS.path) : M unit :=
  fun fs =>
    match FS.mkdir_parents fs p with
    | Ok fs' => (Ok tt, fs')
    | Err e => (Err (OSErr e), fs)
    end.

Definition exists_ (p : FS.path) : M bool :=
  fun fs => (Ok (FS.exists_ fs p), fs).

Definition read_text (p : FS.path) : M text :=
  fun fs =>
    match FS.read_text fs p with
    | Ok c => (Ok c, fs)
    | Err e => (Err (OSErr e), fs)
    end.

Definition write_text (p : FS.path) (data : text) : M unit :=
  fun fs =>
    match FS.write_text fs p data with
    | Ok fs' => (Ok tt, fs')
    | Err e => (Err (OSErr e), fs)
    end.

Definition mismatch (f : text) : exn :=
  RuntimeError (Py.str "Mismatch in " ++ f).

(** A non-empty [str] is true. *)
Definition truthy (s : text) : bool :=
  match s with
  | [] => false
  | _ => true
  end.

(** The body of the loop of [apply], for one change. *)
Definition apply_one (c : Change) : M unit :=
  let p := FS.Path (file c) in
  mkdir_parents (FS.parent p) ;;
  ex ← exists_ p ;
  new ← (if (ex : bool) then
           t ← read_text p ;
           if truthy (original c) then
             if negb (Py.contains (original c) t)
             then raise (mismatch (file c))
             else ret (Py.replace_first (original c) (edited c) t)
           else ret (edited c)
         else ret (edited c)) ;
  write_text p new.

(** [apply(changes)] *)
Fixpoint apply (changes : list Change) : M unit :=
  match changes with
  | [] => ret tt
  | c :: rest => apply_one c ;; apply rest
  end.

End Applier.

(** ** [json.loads], as far as its success goes

    [extract_json] only asks whether [json.loads] accepts a candidate.  The
    decoder reads its input left to right with one character of lookahead,
    so acceptance is decided by a pushdown recogniser: a state for the
    token being read and a stack of the arrays and objects that are open.
    The language is the one of Python's decoder: any value at top level,
    whitespace around tokens, strict strings, and the constants [NaN],
    [Infinity] and [-Infinity]. *)

Module Json.

Inductive ctx :=
| InArray
| InObject.

(** Where the reader is in a number literal: an optional minus sign, an
    integer part without leading zeros, an optional fraction, an optional
    exponent. *)
Inductive num :=
| NMinus
| NZero
| NInt
| NDot
| NFrac
| NExp
| NExpSign
| NExpDigits.

Inductive state :=
| Value (array_start : bool)
| ObjFirst
| ObjKey
| Colon
| After
| Str (key : bool)
| Esc (key : bool)
| Hex (key : bool) (more : nat)
| Num (n : num)
| Lit (rest : text)
| Fail.

Definition is_char (c : ascii) (s : string) : bool :=
  match s with
  | String d EmptyString => Py.ch_eqb c d
  | _ => false
  end.

Definition code (c : ascii) : nat := nat_of_ascii c.

(** The double quote. *)
Definition is_dquote (c : ascii) : bool := code c =? 34.

(** The decoder's whitespace: space, tab, line feed, carriage return. *)
Definition is_ws (c : ascii) : bool :=
  (code c =? 32) || (code c =? 9) || (code c =? 10) || (code c =? 13).

Definition is_digit (c : ascii) : bool :=
  (48 <=? code c) && (code c <=? 57).

Definition is_hex (c : ascii) : bool :=
  is_digit c || ((65 <=? code c) && (code c <=? 70))
  || ((97 <=? code c) && (code c <=? 102)).

Definition is_exp (c : ascii) : bool := is_char c "e" || is_char c "E".

Definition num_done (n : num) : bool :=
  match n with
  | NZero | NInt | NFrac | NExpDigits => true
  | _ => false
  end.

(** After a complete value: a separator or the closing bracket of the
    innermost open container; at top level only whitespace may follow. *)
Definition step_after (stk : list ctx) (c : ascii) : state * list ctx :=
  if is_ws c then (After, stk)
  else match stk with
       | [] => (Fail, [])
       | InArray :: stk' =>
           if is_char c "," then (Value false, stk)
           else if is_char c "]" then (After, stk')
           else (Fail, stk)
       | InObject :: stk' =>
           if is_char c "," then (ObjKey, stk)
           else if is_char c "}" then (After, stk')
           else (Fail, stk)
       end.

(** At the start of a value; right after [[] the array may also close. *)
Definition step_value (array_start : bool) (stk : list ctx) (c : ascii)
  : state * list ctx :=
  if is_ws c then (Value array_start, stk)
  else if is_dquote c then (Str false, stk)
  else if is_char c "{" then (ObjFirst, InObject :: stk)
  else if is_char c "[" then (Value true, InArray :: stk)
  else if is_char c "]" then
    match array_start, stk with
    | true, InArray :: stk' => (After, stk')
    | _, _ => (Fail, stk)
    end
  else if is_char c "n" then (Lit (Py.str "ull"), stk)
  else if is_char c "t" then (Lit (Py.str "rue"), stk)
  else if is_char c "f" then (Lit (Py.str "alse"), stk)
  else if is_char c "N" then (Lit (Py.str "aN"), stk)
  else if is_char c "I" then (Lit (Py.str "nfinity"), stk)
  else if is_char c "-" then (Num NMinus, stk)
  else if is_char c "0" then (Num NZero, stk)
  else if is_digit c then (Num NInt, stk)
  else (Fail, stk).

Definition step_num (n : num) (stk : list ctx) (c : ascii)
  : state * list ctx :=
  match n with
  | NMinus =>
      if is_char c "0" then (Num NZero, stk)
      else if is_digit c then (Num NInt, stk)
      else if is_char c "I" then (Lit (Py.str "nfinity"), stk)
      else (Fail, stk)
  | NZero =>
      if is_char c "." then (Num NDot, stk)
      else if is_exp c then (Num NExp, stk)
      else step_after stk c
  | NInt =>
      if is_digit c then (Num NInt, stk)
      else if is_char c "." then (Num NDot, stk)
      else if is_exp c then (Num NExp, stk)
      else step_after stk c
  | NDot => if is_digit c then (Num NFrac, stk) else (Fail, stk)
  | NFrac =>
      if is_digit c then (Num NFrac, stk)
      else if is_exp c then (Num NExp, stk)
      else step_after stk c
  | NExp =>
      if is_digit c then (Num NExpDigits, stk)
      else if is_char c "+" || is_char c "-" then (Num NExpSign, stk)
      else (Fail, stk)
  | NExpSign => if is_digit c then (Num NExpDigits, stk) else (Fail, stk)
  | NExpDigits =>
      if is_digit c then (Num NExpDigits, stk) else step_after stk c
  end.

Definition is_escape (c : ascii) : bool :=
  is_dquote c || is_char c "\" || is_char c "/" || is_char c "b" || is_char c "f" || is_char c "n"
  || is_char c "r" || is_char c "t".

Definition step (cfg : state * list ctx) (c : ascii) : state * list ctx :=
  let (st, stk) := cfg in
  match st with
  | Value a => step_value a stk c
  | ObjFirst =>
      if is_ws c then (ObjFirst, stk)
      else if is_dquote c then (Str true, stk)
      else if is_char c "}" then
        match stk with
        | InObject :: stk' => (After, stk')
        | _ => (Fail, stk)
        end
      else (Fail, stk)
  | ObjKey =>
      if is_ws c then (ObjKey, stk)
      else if is_dquote c then (Str true, stk)
      else (Fail, stk)
  | Colon =>
      if is_ws c then (Colon, stk)
      else if is_char c ":" then (Value false, stk)
      else (Fail, stk)
  | After => step_after stk c
  | Str k =>
      if is_dquote c then (if k then Colon else After, stk)
      else if is_char c "\" then (Esc k, stk)
      else if code c <? 32 then (Fail, stk)
      else (Str k, stk)
  | Esc k =>
      if is_escape c then (Str k, stk)
      else if is_char c "u" then (Hex k 3, stk)
      else (Fail, stk)
  | Hex k more =>
      if is_hex c then
        match more with
        | 0 => (Str k, stk)
        | S m => (Hex k m, stk)
        end
      else (Fail, stk)
  | Num n => step_num n stk c
  | Lit rest =>
      match rest with
      | [] => (Fail, stk)
      | d :: rest' =>
          if Py.ch_eqb c d
          then (match rest' with [] => After | _ => Lit rest' end, stk)
          else (Fail, stk)
      end
  | Fail => (Fail, stk)
  end.

Definition run (cfg : state * list ctx) (s : text) : state * list ctx :=
  fold_left step s cfg.

Definition start : state * list ctx := (Value false, []).

Definition accepting (cfg : state * list ctx) : bool :=
  match cfg with
  | (After, []) => true
  | (Num n, []) => num_done n
  | _ => false
  end.

(** [json.loads(s)] returns rather than raising [JSONDecodeError]. *)
Definition loads_ok (s : text) : bool := accepting (run start s).

End Json.

(** ** [extract_json] of [main.py] *)

Module Main.

Definition lbrace : text := Py.str "{".
Definition rbrace : text := Py.str "}".

(** The loop [for i in range(len(txt)-1, start, -1)], by the number [n] of
    indices still to visit: the current index is [start + n]. *)
Fixpoint back_scan (txt : text) (start n : nat) : option text :=
  match n with
  | 0 => None
  | S n' =>
      let i := start + n in
      match Py.char_at txt i with
      | Some c =>
          if Json.is_char c "}" then
            let candidate := Py.slice txt start (i + 1) in
            if Json.loads_ok candidate then Some candidate
            else back_scan txt start n'
          else back_scan txt start n'
      | None => back_scan txt start n'
      end
  end.

(** The last line of [extract_json]: the slice from the first [{] through
    the last [}], not validated. *)
Definition fallback (txt : text) (start : nat) : text :=
  if Py.contains rbrace txt then
    match Py.rfind rbrace txt with
    | Some j => Py.slice txt start (j + 1)
    | None => Py.slice txt start 0
    end
  else Py.slice_from txt start.

Definition extract_json (txt : text) : text :=
  match Py.find lbrace txt with
  | None => txt
  | Some start =>
      match back_scan txt start (length txt - 1 - start) with
      | Some candidate => candidate
      | None => fallback txt start
      end
  end.

(** The slice [txt[start:i+1]] the loop tries at index [i]. *)
Definition candidate (txt : text) (start i : nat) : text :=
  Py.slice txt start (i + 1).

(** Index [i] is one the loop visits and holds a closing brace. *)
Definition closing (txt : text) (start i : nat) : Prop :=
  start < i < length txt /\ Py.char_at txt i = Some "}"%char.

(** The slices of [txt] that start with [{], end with [}] and are valid
    JSON, as pairs of a start index and a length. *)
Definition json_objects (txt : text) : list (nat * nat) :=
  filter
    (fun ij =>
       let s := Py.slice txt (fst ij) (fst ij + snd ij) in
       Py.startswith lbrace s && Py.startswith rbrace (rev s)
       && Json.loads_ok s = true)
    (flat_map (fun i => map (fun n => (i, n)) (seq 2 (length txt - i - 1)))
       (seq 0 (length txt))).

End Main.

(** ** [handle] of [main.py]

    The decision loop.  The configuration store, the filesystem, the
    number of provider calls and of console reads made so far, and the
    side effects performed, in order, are the state; what the provider,
    the user, the shell and the web answer is given by an environment.
    Every recursive call of [handle] is followed by [return], so one call
    is a turn that either ends or names the arguments of the next call. *)

Record Config := {
  active_provider : text;
  planning_mode : bool;
  fast_mode : bool;
  run_policy : text;
  voice_mode : bool;
  newline_support : bool;
  mission_mode : bool;
  visibility_allowed : bool;
  web_browsing_allowed : bool
}.

(** The command line flags [handle] reads. *)
Record Args := {
  arg_plan : bool;
  arg_yes : bool;
  arg_fast : bool
}.

Record Command := {
  command : text;
  reason : text
}.

(** The decoded reply, by the keys [handle] reads.  A key that is absent
    or [null] reads as the empty text or the empty list, except [plan],
    whose absence matters. *)
Module Response.

Record t := {
  thought : text;
  response : text;
  plan : option text;
  self_critique : text;
  confidence : text;
  request_files : list text;
  web_search : text;
  web_browse : text;
  search_project : text;
  changes : list Change;
  commands : list Command
}.

End Response.

(** The [mission_data] argument. *)
Inductive mission_data :=
| MError (msg : text)
| MFiles (context : text)
| MWebResults (context : text)
| MProjectSearch (results : text).

(** What [provider.call] does. *)
Inductive provider_out :=
| ProviderError
| KeyboardInterrupt
| Responds (response_text : text) (raw_model_thinking : text).

(** What [subprocess.run] returns; the return code as [str] prints it. *)
Record Completed := {
  stdout : text;
  stderr : text;
  returncode : text
}.

(** The side effects of a turn. *)
Inductive event :=
| Think (instruction : text) (plan_only fast : bool)
        (md : option mission_data)
| ReadFile (name : text)
| WebSearch (query : text)
| WebBrowse (url : text)
| SearchProject (pattern : text)
| Speak (msg : text)
| Run (cmd : text) (captured : bool)
| Recorded (instruction : text) (plan : option text) (confidence : text)
           (changes : nat)
| SetMissionMode (enabled : bool).

Record World := {
  cfg : Config;
  files : FS.t;
  calls : nat;
  reads : nat;
  trace : list event
}.

(** The collaborators of the loop. *)
Record Env := {
  (** the reply to the [n]-th provider call *)
  provider_call : nat -> provider_out;
  (** the [n]-th line typed at the console *)
  console_input : nat -> text;
  (** [json.loads], on a text it accepts, seen through the keys read *)
  loads : text -> Response.t;
  (** the message of the exception [json.loads] raises *)
  loads_error : text -> text;
  (** [subprocess.run(cmd, shell=True)] *)
  subprocess_run : text -> FS.t -> Completed * FS.t;
  (** the functions [web_search], [web_browse] and [search_project] *)
  web_search : text -> text;
  web_browse : text -> text;
  search_project : text -> FS.t -> text;
  (** [str] of a list of strings and of an [OSError] *)
  list_str : list text -> text;
  oserror_str : OSError -> text;
  (** [handle_command]: whether the text was a command, and the state
      it leaves *)
  handle_command : text -> Args -> World -> bool * World
}.

(** How a turn ends: it returns, an exception escapes it, or it calls
    [handle] again. *)
Inductive next :=
| Return
| Raise
| Again (instruction : text) (md : option mission_data).

(** What the reply parses to. *)
Inductive parsed :=
| Parsed (data : Response.t)
| NotADict
| Unparsed (msg : text).

Module Loop.

Definition nl : text := [ascii_of_nat 10].
Definition backslash_n : text := Py.str "\n".
Definition fence_json : text := Py.str "```json".
Definition fence : text := Py.str "```".

Definition truthy {A} (l : list A) : bool :=
  match l with
  | [] => false
  | _ => true
  end.

Definition member (s : text) (l : list string) : bool :=
  existsb (fun x => Py.text_eqb s (Py.str x)) l.

Definition log (e : event) (w : World) : World :=
  {| cfg := cfg w; files := files w; calls := calls w; reads := reads w;
     trace := trace w ++ [e] |}.

Definition set_files (fs : FS.t) (w : World) : World :=
  {| cfg := cfg w; files := fs; calls := calls w; reads := reads w;
     trace := trace w |}.

(** [cfg.set_mission_mode(enabled)] *)
Definition set_mission_mode (enabled : bool) (w : World) : World :=
  let c := cfg w in
  log (SetMissionMode enabled)
    {| cfg := {| active_provider := active_provider c;
                 planning_mode := planning_mode c;
                 fast_mode := fast_mode c;
                 run_policy := run_policy c;
                 voice_mode := voice_mode c;
                 newline_support := newline_support c;
                 mission_mode := enabled;
                 visibility_allowed := visibility_allowed c;
                 web_browsing_allowed := web_browsing_allowed c |};
       files := files w; calls := calls w; reads := reads w;
       trace := trace w |}.

Section Handle.

Variable E : Env.

(** [console.input(...)] *)
Definition input (w : World) : text * World :=
  (console_input E (reads w),
   {| cfg := cfg w; files := files w; calls := calls w;
      reads := S (reads w); trace := trace w |}).

(** [get_provider(name)] returns rather than raising. *)
Definition get_provider (name : text) : bool :=
  member name ["ollama"; "openai"; "anthropic"; "gemini"; "deepseek"]%string.

(** THINKING: [build] and [provider.call]. *)
Definition thinking (instruction : text) (plan_only fast : bool)
    (md : option mission_data) (w : World) : provider_out * World :=
  (provider_call E (calls w),
   log (Think instruction plan_only fast md)
     {| cfg := cfg w; files := files w; calls := S (calls w);
        reads := reads w; trace := trace w |}).

(** PARSE: the reply decoded; or a JSON value that is no object, on which
    [data.get] raises; or the message for the model when the reply is not
    JSON. *)
Definition decode (s : text) : parsed :=
  if Py.startswith Main.lbrace s then Parsed (loads E s) else NotADict.

Definition parse (response_text : text) : parsed :=
  let extracted_text := Main.extract_json response_text in
  if Json.loads_ok extracted_text then decode extracted_text
  else if Py.contains fence_json response_text then
    let inner_json :=
      Py.strip
        (nth 0 (Py.split fence (nth 1 (Py.split fence_json response_text) []))
           []) in
    if Json.loads_ok (Main.extract_json inner_json)
    then decode (Main.extract_json inner_json)
    else Unparsed (Py.str "Error parsing JSON: "
                   ++ loads_error E (Main.extract_json inner_json))
  else Unparsed (Py.str "Response was not valid JSON.").

(** The loop over [requested_files]; reading a directory raises. *)
Fixpoint read_requested (requested : list text) (context : text) (w : World)
  : result OSError text * World :=
  match requested with
  | [] => (Ok context, w)
  | rf :: rest =>
      let p := FS.Path rf in
      if FS.exists_ (files w) p then
        match FS.read_text (files w) p with
        | Ok content =>
            read_requested rest
              (context ++ nl ++ Py.str "--- " ++ rf ++ Py.str " ---" ++ nl
               ++ content ++ nl)
              (log (ReadFile rf) w)
        | Err e => (Err e, log (ReadFile rf) w)
        end
      else
        read_requested rest
          (context ++ nl ++ Py.str "--- " ++ rf ++ Py.str " ---" ++ nl
           ++ Py.str "Error: File not found." ++ nl)
          w
  end.

Definition visibility_notice (requested : list text) : text :=
  nl ++ nl ++ Py.str "Error: Permission denied. You requested "
  ++ list_str E requested
  ++ Py.str " but full visibility is currently DISABLED. Ask the user to run `/visibility` to grant permission.".

Definition web_notice : text :=
  nl ++ nl
  ++ Py.str "Error: Web browsing is currently DISABLED. Ask the user to run `/web` to enable it if you need search or browsing capabilities.".

(** The web branch with permission granted. *)
Definition browse (data : Response.t) (w : World) : text * World :=
  let (context1, w1) :=
    if truthy (Response.web_search data) then
      (nl ++ Py.str "Search Results for '" ++ Response.web_search data
       ++ Py.str "':" ++ nl ++ web_search E (Response.web_search data) ++ nl,
       log (WebSearch (Response.web_search data)) w)
    else ([], w) in
  if truthy (Response.web_browse data) then
    (context1 ++ nl ++ Py.str "Content of " ++ Response.web_browse data
     ++ Py.str ":" ++ nl ++ web_browse E (Response.web_browse data) ++ nl,
     log (WebBrowse (Response.web_browse data)) w1)
  else (context1, w1).

(** SUBSTEP: the requests of the reply that are acted on before anything
    is shown, in their order of precedence; [None] when there is none. *)
Definition substep (instruction : text) (plan_only : bool)
    (data : Response.t) (w : World) : option (next * World) :=
  let autonomous := mission_mode (cfg w) || plan_only in
  if truthy (Response.request_files data) && autonomous then
    if visibility_allowed (cfg w) then
      match read_requested (Response.request_files data) [] w with
      | (Ok context, w') => Some (Again instruction (Some (MFiles context)), w')
      | (Err _, w') => Some (Raise, w')
      end
    else
      Some (Again (instruction
                   ++ visibility_notice (Response.request_files data)) None,
            w)
  else if (truthy (Response.web_search data)
           || truthy (Response.web_browse data)) && autonomous then
    if web_browsing_allowed (cfg w) then
      let (context, w') := browse data w in
      Some (Again instruction (Some (MWebResults context)), w')
    else Some (Again (instruction ++ web_notice) None, w)
  else if truthy (Response.search_project data) && autonomous then
    Some (Again instruction
            (Some (MProjectSearch
                     (search_project E (Response.search_project data)
                        (files w)))),
          log (SearchProject (Response.search_project data)) w)
  else None.

(** The text of the plan panel; it is bound only when the panel is
    shown. *)
Definition plan_text (fast : bool) (data : Response.t) : option text :=
  if fast && (truthy (Response.changes data) || truthy (Response.commands data))
  then None
  else Some (match Response.plan data with
             | Some p => p
             | None => Py.str "No plan provided"
             end).

(** PRESENT, up to the prompt: what is spoken, and the pause after the
    diffs.  [None] when the unbound [plan_text] is read. *)
Definition present (args : Args) (fast : bool) (data : Response.t)
    (w : World) : option World :=
  let w1 :=
    if truthy (Response.response data) && voice_mode (cfg w)
    then log (Speak (Response.response data)) w
    else w in
  let spoken :=
    if voice_mode (cfg w1) && negb (truthy (Response.response data)) then
      match plan_text fast data with
      | Some p => Some (log (Speak p) w1)
      | None => None
      end
    else Some w1 in
  match spoken with
  | None => None
  | Some w2 =>
      if truthy (Response.changes data)
         && negb (arg_yes args || fast_mode (cfg w2))
      then Some (snd (input w2))
      else Some w2
  end.

Definition output_msg (res : Completed) : text :=
  Py.str "Command output:" ++ nl ++ Py.str "STDOUT:" ++ nl ++ stdout res
  ++ nl ++ Py.str "STDERR:" ++ nl ++ stderr res ++ nl
  ++ Py.str "Return Code: " ++ returncode res.

Definition command_results (cmd : text) (res : Completed) : text :=
  nl ++ nl ++ Py.str "Command results for `" ++ cmd ++ Py.str "`:" ++ nl
  ++ output_msg res.

(** [subprocess.run(c['command'], shell=True, ...)] *)
Definition run_command (cmd : text) (captured : bool) (w : World)
  : Completed * World :=
  let (res, fs') := subprocess_run E cmd (files w) in
  (res, log (Run cmd captured) (set_files fs' w)).

(** The loop of the branch that runs every command and captures its
    output. *)
Fixpoint run_all (commands : list Command) (instruction : text) (w : World)
  : text * World :=
  match commands with
  | [] => (instruction, w)
  | c :: rest =>
      let (res, w') := run_command (command c) true w in
      if mission_mode (cfg w')
      then run_all rest (instruction ++ command_results (command c) res) w'
      else run_all rest instruction w'
  end.

(** What the captured outputs add to the instruction in mission mode. *)
Fixpoint feedback (commands : list Command) (fs : FS.t) : text :=
  match commands with
  | [] => []
  | c :: rest =>
      let (res, fs') := subprocess_run E (command c) fs in
      command_results (command c) res ++ feedback rest fs'
  end.

(** The loop of the branch that asks before each command. *)
Fixpoint run_asking (commands : list Command) (w : World) : World :=
  match commands with
  | [] => w
  | c :: rest =>
      let (answer, w1) := input w in
      if Py.text_eqb (Py.lower answer) (Py.str "y")
      then run_asking rest (snd (run_command (command c) false w1))
      else run_asking rest w1
  end.

(** The commands the asking branch runs when the console lines are read
    from the [n]-th on: those answered with [y] or [Y]. *)
Fixpoint asked (commands : list Command) (n : nat) : list (text * bool) :=
  match commands with
  | [] => []
  | c :: rest =>
      (if Py.text_eqb (Py.lower (console_input E n)) (Py.str "y")
       then [(command c, false)] else [])
      ++ asked rest (S n)
  end.

(** Command execution, under the run policy. *)
Definition run_commands (args : Args) (commands : list Command)
    (instruction : text) (w : World) : text * World :=
  if truthy commands then
    let policy := run_policy (cfg w) in
    if Py.text_eqb policy (Py.str "never") then (instruction, w)
    else if Py.text_eqb policy (Py.str "always") || arg_yes args
            || mission_mode (cfg w)
    then run_all commands instruction w
    else (instruction, run_asking commands w)
  else (instruction, w).

Definition exn_str (e : exn) : text :=
  match e with
  | RuntimeError msg => msg
  | OSErr e => oserror_str E e
  end.

Definition mission_complete (data : Response.t) : bool :=
  Py.contains (Py.str "MISSION COMPLETE")
    (Py.upper (match Response.plan data with
               | Some p => p
               | None => []
               end)).

(** APPLY: the branch of an accepted proposal. *)
Definition accept (args : Args) (data : Response.t) (instruction : text)
    (w : World) : next * World :=
  let (instruction, w1) :=
    run_commands args (Response.commands data) instruction w in
  if negb (truthy (Response.changes data)) then (Return, w1)
  else
    match Applier.apply (Response.changes data) (files w1) with
    | (Err e, fs') =>
        let w2 := set_files fs' w1 in
        if mission_mode (cfg w2)
        then (Again instruction
                (Some (MError (Py.str "Error applying changes: "
                               ++ exn_str e))),
              w2)
        else (Return, w2)
    | (Ok _, fs') =>
        let w2 := set_files fs' w1 in
        let w3 :=
          if negb (arg_fast args || fast_mode (cfg w2))
          then snd (input w2) else w2 in
        let w4 :=
          log (Recorded instruction (Response.plan data)
                 (Response.confidence data)
                 (length (Response.changes data))) w3 in
        if (arg_fast args || fast_mode (cfg w4)) && negb (mission_mode (cfg w4))
        then (Return, w4)
        else if mission_mode (cfg w4) then
          if mission_complete data
          then (Return, set_mission_mode false w4)
          else (Again instruction None, w4)
        else (Return, w4)
    end.

(** The prompt after the proposal: accept, reject, or refine. *)
Definition interact (args : Args) (data : Response.t) (instruction : text)
    (w : World) : next * World :=
  let (user_input, w1) :=
    if arg_yes args then (Py.str "a", w)
    else let (line, w') := input w in (Py.strip line, w') in
  if member (Py.lower user_input) ["a"; "accept"; ""]%string
  then accept args data instruction w1
  else if member (Py.lower user_input) ["r"; "reject"]%string
  then (Return, w1)
  else (Again (instruction ++ nl ++ nl ++ Py.str "User Feedback: "
               ++ user_input) None,
        w1).

(** Slash commands are tried first. *)
Definition dispatch (instruction : text) (args : Args) (w : World)
  : bool * World :=
  if Py.startswith FS.slash instruction
  then handle_command E instruction args w
  else (false, w).

(** Newline support: the two characters [\n] become a line feed. *)
Definition expand (c : Config) (instruction : text) : text :=
  if newline_support c
  then Py.replace_all backslash_n nl instruction
  else instruction.

(** One call of [handle], up to its [return] or its recursive call. *)
Definition turn (instruction : text) (args : Args)
    (md : option mission_data) (w : World) : next * World :=
  let (handled, w0) := dispatch instruction args w in
  if handled then (Return, w0)
  else
    let instruction := expand (cfg w0) instruction in
    if negb (get_provider (active_provider (cfg w0))) then (Return, w0)
    else
      let plan_only := arg_plan args || planning_mode (cfg w0) in
      let fast := arg_fast args || fast_mode (cfg w0) in
      match thinking instruction plan_only fast md w0 with
      | (ProviderError, w1) => (Return, w1)
      | (KeyboardInterrupt, w1) => (Return, w1)
      | (Responds response_text raw_model_thinking, w1) =>
          match parse response_text with
          | Unparsed msg =>
              if mission_mode (cfg w1)
              then (Again instruction (Some (MError msg)), w1)
              else (Return, w1)
          | NotADict => (Raise, w1)
          | Parsed data =>
              match substep instruction plan_only data w1 with
              | Some r => r
              | None =>
                  match present args fast data w1 with
                  | None => (Raise, w1)
                  | Some w2 => interact args data instruction w2
                  end
              end
          end
      end.

(** [handle(text, args, mission_data)], run for at most [fuel] turns:
    [None] when the turns are used up before the recursion ends. *)
Fixpoint handle (fuel : nat) (instruction : text) (args : Args)
    (md : option mission_data) (w : World) : option (next * World) :=
  match fuel with
  | 0 => None
  | S fuel' =>
      match turn instruction args md w with
      | (Again instruction' md', w') => handle fuel' instruction' args md' w'
      | r => Some r
      end
  end.





End Handle.

(** The commands run so far, in order, with whether their output was
    captured. *)
Definition commands_run (tr : list event) : list (text * bool) :=
  flat_map (fun e => match e with
                     | Run cmd captured => [(cmd, captured)]
                     | _ => []
                     end) tr.

(** The files read so far and the web accesses made so far. *)
Definition accesses (tr : list event) : list event :=
  List.filter (fun e => match e with
                        | ReadFile _ | WebSearch _ | WebBrowse _ => true
                        | _ => false
                        end) tr.

End Loop.

(** ** [cost.py]

    The price table in the order of the source, with the prices as they
    are written there.  The result of [calculate_cost] is the float [0.0]
    when no key matches; otherwise it is the sum of the two products of
    the source, kept here as the prices and token counts it is computed
    from. *)

Module Cost.

Definition PRICING : list (string * (string * string)) :=
  [ ("gpt-4o", ("2.50", "10.00"));
    ("gpt-4o-mini", ("0.15", "0.60"));
    ("claude-3-5-sonnet-20241022", ("3.00", "15.00"));
    ("claude-3-opus-20240229", ("15.00", "75.00"));
    ("claude-3-haiku-20240307", ("0.25", "1.25"));
    ("gemini-1.5-pro", ("3.50", "10.50"));
    ("gemini-1.5-flash", ("0.075", "0.30"));
    ("deepseek", ("0.14", "0.28"));
    ("ollama", ("0.0", "0.0")) ]%string.

Inductive cost :=
| Zero
| Priced (input_price output_price : string) (input_tokens output_tokens : Z).

(** [next((k for k in PRICING if k in model_name), None)] *)
Definition pricing_key (model_name : text) : option string :=
  option_map fst
    (List.find (fun e => Py.contains (Py.str (fst e)) model_name) PRICING).

Definition calculate_cost (model_name : text) (input_tokens output_tokens : Z)
  : cost :=
  match List.find (fun e => Py.contains (Py.str (fst e)) model_name) PRICING
  with
  | None => Zero
  | Some (_, (input_price, output_price)) =>
      Priced input_price output_price input_tokens output_tokens
  end.

End Cost.

(** ** Sample data for the scenarios of the specification *)

Module Sample.

(** A text written with ['] where it has the double quote. *)
Definition q (s : string) : text :=
  map (fun c => if Json.is_char c "'" then ascii_of_nat 34 else c) (Py.str s).

(** Prose with braces before the only JSON object of the text. *)
Definition prose_braces : text := q "Use {x}: {'a':1}".

(** An object with a trailing comma, which is not JSON. *)
Definition trailing_comma : text := q "{'a': 1,}".

(** An object between prose; the prose after it holds a closing brace. *)
Definition wrapped_pre : text := Py.str "Here is the plan: ".
Definition wrapped_obj : text := q "{'plan': 'x', 'changes': []}".
Definition wrapped_post : text := Py.str " (done})".

Definition a_txt : text := Py.str "a.txt".

(** A configuration with every toggle off and the default run policy. *)
Definition config (mission visibility web : bool) (policy : string) : Config :=
  {| active_provider := Py.str "ollama";
     planning_mode := false;
     fast_mode := false;
     run_policy := Py.str policy;
     voice_mode := false;
     newline_support := true;
     mission_mode := mission;
     visibility_allowed := visibility;
     web_browsing_allowed := web |}.

Definition world (c : Config) (fs : FS.t) : World :=
  {| cfg := c; files := fs; calls := 0; reads := 0; trace := [] |}.

Definition auto_yes : Args :=
  {| arg_plan := false; arg_yes := true; arg_fast := false |}.

Definition reply (plan : string) : Response.t :=
  {| Response.thought := [];
     Response.response := [];
     Response.plan := Some (Py.str plan);
     Response.self_critique := [];
     Response.confidence := [];
     Response.request_files := [];
     Response.web_search := [];
     Response.web_browse := [];
     Response.search_project := [];
     Response.changes := [];
     Response.commands := [] |}.

(** A reply that proposes one shell command. *)
Definition reply_command : Response.t :=
  {| Response.thought := [];
     Response.response := [];
     Response.plan := Some (Py.str "list the files");
     Response.self_critique := [];
     Response.confidence := [];
     Response.request_files := [];
     Response.web_search := [];
     Response.web_browse := [];
     Response.search_project := [];
     Response.changes := [];
     Response.commands :=
       [ {| command := Py.str "ls"; reason := Py.str "look around" |} ] |}.

(** A reply that asks for a file. *)
Definition reply_request : Response.t :=
  {| Response.thought := [];
     Response.response := [];
     Response.plan := Some (Py.str "read the notes first");
     Response.self_critique := [];
     Response.confidence := [];
     Response.request_files := [Py.str "notes.txt"];
     Response.web_search := [];
     Response.web_browse := [];
     Response.search_project := [];
     Response.changes := [];
     Response.commands := [] |}.

(** A reply that asks for a web search. *)
Definition reply_search : Response.t :=
  {| Response.thought := [];
     Response.response := [];
     Response.plan := Some (Py.str "look it up");
     Response.self_critique := [];
     Response.confidence := [];
     Response.request_files := [];
     Response.web_search := Py.str "rocq";
     Response.web_browse := [];
     Response.search_project := [];
     Response.changes := [];
     Response.commands := [] |}.



(** A provider that always sends the same object, decoded to [data]; a
    shell whose commands print nothing and leave the files alone. *)
Definition env (data : Response.t) : Env :=
  {| provider_call := fun _ => Responds (q "{'plan': 'p'}") [];
     console_input := fun _ => [];
     loads := fun _ => data;
     loads_error := fun _ => Py.str "Expecting value";
     subprocess_run :=
       fun _ fs =>
         ({| stdout := []; stderr := []; returncode := Py.str "0" |}, fs);
     web_search := fun _ => [];
     web_browse := fun _ => [];
     search_project := fun _ _ => [];
     list_str :=
       fun l => Py.str "[" ++ concat (map (fun x => Py.str "'" ++ x ++ Py.str "'") l)
                ++ Py.str "]";
     oserror_str := fun _ => Py.str "OSError";
     handle_command := fun _ _ w => (false, w) |}.

Definition go : text := Py.str "go".


(** [a.txt] holds ["hello foo world"]. *)
Definition fs_hello : FS.t :=
  {[ [a_txt] := File (Py.str "hello foo world") ]}.

(** [a.txt] holds ["foo foo"]. *)
Definition fs_twice : FS.t := {[ [a_txt] := File (Py.str "foo foo") ]}.

Definition foo_to_bar : Change :=
  {| file := a_txt; original := Py.str "foo"; edited := Py.str "bar" |}.

Definition zzz_to_bar : Change :=
  {| file := a_txt; original := Py.str "zzz"; edited := Py.str "bar" |}.

Definition create_x : Change :=
  {| file := a_txt; original := []; edited := Py.str "x" |}.

Definition create_b : Change :=
  {| file := Py.str "b.txt"; original := Py.str "old"; edited := Py.str "y" |}.

(** The same file reached through a directory that is not there yet. *)
Definition zzz_via_new : Change :=
  {| file := Py.str "new/../a.txt"; original := Py.str "zzz";
     edited := Py.str "bar" |}.

(** The same collaborators with a provider that fails. *)
Definition env_failing : Env :=
  {| provider_call := fun _ => ProviderError;
     console_input := console_input (env (reply "p"));
     loads := loads (env (reply "p"));
     loads_error := loads_error (env (reply "p"));
     subprocess_run := subprocess_run (env (reply "p"));
     web_search := web_search (env (reply "p"));
     web_browse := web_browse (env (reply "p"));
     search_project := search_project (env (reply "p"));
     list_str := list_str (env (reply "p"));
     oserror_str := oserror_str (env (reply "p"));
     handle_command := handle_command (env (reply "p")) |}.

(** The same collaborators with a provider that answers in prose. *)
Definition env_prose : Env :=
  {| provider_call := fun _ => Responds (Py.str "I cannot help with that.") [];
     console_input := console_input (env (reply "p"));
     loads := loads (env (reply "p"));
     loads_error := loads_error (env (reply "p"));
     subprocess_run := subprocess_run (env (reply "p"));
     web_search := web_search (env (reply "p"));
     web_browse := web_browse (env (reply "p"));
     search_project := search_project (env (reply "p"));
     list_str := list_str (env (reply "p"));
     oserror_str := oserror_str (env (reply "p"));
     handle_command := handle_command (env (reply "p")) |}.

(** [a.txt] and a directory [src]. *)
Definition fs_src : FS.t :=
  <[ [Py.str "src"] := Dir ]> fs_hello.


End Sample.

(** * Properties *)

(** ** Facts about Python strings *)

Module PyFacts.
Import Py.

Lemma ch_eqb_eq (a b : ascii) : ch_eqb a b = true <-> a = b.
Proof. unfold ch_eqb. apply Ascii.eqb_eq. Qed.

Lemma ch_eqb_refl (a : ascii) : ch_eqb a a = true.
Proof. apply ch_eqb_eq. reflexivity. Qed.

Lemma text_eqb_eq (s t : text) : text_eqb s t = true <-> s = t.
Proof.
  revert t. induction s as [|a s IH]; intros [|b t]; simpl;
    try (split; [discriminate | intros; discriminate]); [tauto|].
  rewrite andb_true_iff, ch_eqb_eq, IH.
  split; [intros [-> ->]; reflexivity | intros [= -> ->]; auto].
Qed.

Lemma startswith_app (p s : text) : startswith p (p ++ s) = true.
Proof.
  induction p as [|a p IH]; simpl; [reflexivity|].
  rewrite ch_eqb_refl. exact IH.
Qed.

Lemma startswith_inv (p s : text) :
  startswith p s = true -> s = p ++ skipn (length p) s.
Proof.
  revert s. induction p as [|a p IH]; intros s H; simpl in *; [reflexivity|].
  destruct s as [|b s]; [discriminate|].
  apply andb_true_iff in H as [Hab Hps].
  apply ch_eqb_eq in Hab as ->. simpl. f_equal. apply IH, Hps.
Qed.

Lemma startswith_iff (p s : text) :
  startswith p s = true <-> exists r, s = p ++ r.
Proof.
  split.
  - intros H. eexists. apply startswith_inv, H.
  - intros [r ->]. apply startswith_app.
Qed.

Lemma contains_unfold (sub s : text) :
  contains sub s =
  startswith sub s || match s with [] => false | _ :: s' => contains sub s' end.
Proof. destruct s; reflexivity. Qed.

Lemma find_unfold (sub s : text) :
  find sub s =
  if startswith sub s then Some 0
  else match s with [] => None | _ :: s' => option_map S (find sub s') end.
Proof. destruct s; reflexivity. Qed.

Lemma replace_first_unfold (old new s : text) :
  replace_first old new s =
  if startswith old s then new ++ skipn (length old) s
  else match s with [] => [] | a :: s' => a :: replace_first old new s' end.
Proof. destruct s; reflexivity. Qed.

Lemma contains_app (sub pre post : text) :
  contains sub (pre ++ sub ++ post) = true.
Proof.
  induction pre as [|a pre IH]; simpl.
  - rewrite contains_unfold, startswith_app. reflexivity.
  - rewrite IH. apply orb_true_r.
Qed.

Lemma contains_inv (sub s : text) :
  contains sub s = true -> exists pre post, s = pre ++ sub ++ post.
Proof.
  induction s as [|a s IH]; simpl; intros H.
  - rewrite orb_false_r in H. apply startswith_inv in H.
    exists [], (skipn (length sub) []). exact H.
  - apply orb_true_iff in H as [H|H].
    + apply startswith_inv in H. exists [], (skipn (length sub) (a :: s)).
      exact H.
    + destruct (IH H) as (pre & post & ->). exists (a :: pre), post.
      reflexivity.
Qed.


(** The occurrence at the end of [pre] is the one [replace_first] rewrites
    as soon as none starts earlier. *)
Lemma replace_first_at (old new pre post : text) :
  find old (pre ++ old ++ post) = Some (length pre) ->
  replace_first old new (pre ++ old ++ post) = pre ++ new ++ post.
Proof.
  induction pre as [|a pre IH]; intros Hfind.
  - simpl. rewrite replace_first_unfold, startswith_app. f_equal.
    rewrite skipn_app, skipn_all, Nat.sub_diag. reflexivity.
  - simpl in *. destruct (startswith old (a :: pre ++ old ++ post));
      [discriminate|].
    f_equal. apply IH.
    destruct (find old (pre ++ old ++ post)); simpl in *; congruence.
Qed.

Lemma find_contains (sub s : text) :
  contains sub s = true -> exists i, find sub s = Some i.
Proof.
  induction s as [|a s IH]; simpl; intros H.
  - rewrite orb_false_r in H. rewrite H. eauto.
  - destruct (startswith sub (a :: s)); [eauto|].
    destruct (IH H) as [i ->]. simpl. eauto.
Qed.

Lemma find_split (sub s : text) (i : nat) :
  find sub s = Some i ->
  exists pre post, s = pre ++ sub ++ post /\ length pre = i.
Proof.
  revert i. induction s as [|a s IH]; simpl; intros i H.
  - destruct (startswith sub []) eqn:E; [|discriminate].
    injection H as <-. apply startswith_inv in E.
    exists [], (skipn (length sub) []). auto.
  - destruct (startswith sub (a :: s)) eqn:E.
    + injection H as <-. apply startswith_inv in E.
      exists [], (skipn (length sub) (a :: s)). auto.
    + destruct (find sub s) as [j|]; [|discriminate]. injection H as <-.
      destruct (IH j eq_refl) as (pre & post & -> & <-).
      exists (a :: pre), post. auto.
Qed.



End PyFacts.

(** ** Facts about the filesystem *)

Module FSFacts.
Import FS.

Lemma node_at_cons (fs : t) (x : text) (cp : path) :
  node_at fs (x :: cp) = fs !! (x :: cp).
Proof. reflexivity. Qed.

Lemma node_at_snoc (fs : t) (cp : path) (x : text) :
  node_at fs (cp ++ [x]) = fs !! (cp ++ [x]).
Proof. destruct cp; reflexivity. Qed.

Lemma node_at_None (fs : t) (cp : path) :
  node_at fs cp = None -> fs !! cp = None.
Proof. destruct cp; [discriminate | auto]. Qed.

Lemma walk_snoc (fs : t) (q : path) (y : text) (cur : path) :
  walk fs cur (q ++ [y]) =
  match walk fs cur q with
  | Ok c => walk fs c [y]
  | Err e => Err e
  end.
Proof.
  revert cur. induction q as [|x q IH]; intros cur; [reflexivity|].
  cbn [app walk]. destruct (decide (x = dotdot)); [apply IH|].
  destruct (fs !! (cur ++ [x])) as [[c|]|]; auto.
Qed.

(** Every directory the walk stands in exists: all non-empty prefixes of
    the current canonical path are directories. *)
Definition dirs_above (fs : t) (cur : path) : Prop :=
  forall c k, cur = c ++ k -> node_at fs c = Some Dir.

Lemma dirs_above_nil (fs : t) : dirs_above fs [].
Proof.
  intros c k H. symmetry in H. apply app_eq_nil in H as [-> _]. reflexivity.
Qed.

Lemma dirs_above_removelast (fs : t) (cur : path) :
  dirs_above fs cur -> dirs_above fs (removelast cur).
Proof.
  intros H c k Hk.
  destruct (decide (cur = [])) as [->|Hne].
  - simpl in Hk. symmetry in Hk. apply app_eq_nil in Hk as [-> _].
    reflexivity.
  - destruct (exists_last Hne) as (cur' & z & ->).
    rewrite removelast_last in Hk. subst cur'.
    apply (H c (k ++ [z])). rewrite app_assoc. reflexivity.
Qed.

Lemma dirs_above_snoc (fs : t) (cur : path) (x : text) :
  dirs_above fs cur -> fs !! (cur ++ [x]) = Some Dir ->
  dirs_above fs (cur ++ [x]).
Proof.
  intros H Hx c k Hk.
  destruct (decide (k = [])) as [->|Hne].
  - rewrite app_nil_r in Hk. subst c. rewrite node_at_snoc. exact Hx.
  - destruct (exists_last Hne) as (k' & z & ->).
    rewrite app_assoc in Hk. apply app_inj_tail in Hk as [Hk _].
    apply (H c k'). exact Hk.
Qed.

Lemma walk_dirs_above (fs : t) (q cur c : path) :
  walk fs cur q = Ok c -> dirs_above fs cur -> dirs_above fs c.
Proof.
  revert cur. induction q as [|x q IH]; intros cur Hw Hcur; simpl in Hw.
  - injection Hw as <-. exact Hcur.
  - destruct (decide (x = dotdot)).
    + eapply IH; [exact Hw|]. apply dirs_above_removelast, Hcur.
    + destruct (fs !! (cur ++ [x])) as [[?|]|] eqn:E; try discriminate.
      eapply IH; [exact Hw|]. apply dirs_above_snoc; assumption.
Qed.

Lemma locate_snoc (fs : t) (q : path) (y : text) :
  locate fs (q ++ [y]) =
  match walk fs [] q with
  | Err e => Err e
  | Ok cur => Ok (if decide (y = dotdot) then removelast cur else cur ++ [y])
  end.
Proof.
  unfold locate. rewrite removelast_last, last_last.
  destruct (q ++ [y]) eqn:E; [|reflexivity].
  apply app_eq_nil in E as [_ E]. discriminate.
Qed.

(** A path that can be walked names an existing directory. *)
Lemma walk_locate (fs : t) (q cur : path) :
  walk fs [] q = Ok cur ->
  locate fs q = Ok cur /\ node_at fs cur = Some Dir.
Proof.
  intros Hw. destruct (decide (q = [])) as [->|Hne].
  - injection Hw as <-. auto.
  - destruct (exists_last Hne) as (q' & y & ->).
    rewrite walk_snoc in Hw. rewrite locate_snoc.
    destruct (walk fs [] q') as [c|] eqn:Hq; [|discriminate].
    pose proof (walk_dirs_above _ _ _ _ Hq (dirs_above_nil fs)) as Hc.
    simpl in Hw. destruct (decide (y = dotdot)).
    + injection Hw as <-. split; [reflexivity|].
      apply (dirs_above_removelast _ _ Hc _ []). rewrite app_nil_r.
      reflexivity.
    + destruct (fs !! (c ++ [y])) as [[?|]|] eqn:E; try discriminate.
      injection Hw as <-. rewrite node_at_snoc. auto.
Qed.

Lemma mkdir_rev_unfold (fs : t) (rp : path) :
  mkdir_rev fs rp =
  match os_mkdir fs (rev rp) with
  | Ok fs' => Ok fs'
  | Err FileNotFoundError =>
      match rp with
      | [] => Err FileNotFoundError
      | _ :: rp' =>
          match mkdir_rev fs rp' with
          | Ok fs1 => mkdir_exist_ok fs1 (rev rp)
          | Err e => Err e
          end
      end
  | Err e => if is_dir fs (rev rp) then Ok fs else Err e
  end.
Proof. destruct rp; reflexivity. Qed.

(** Making a directory that is already there changes nothing. *)
Lemma mkdir_parents_walked (fs : t) (q cur : path) :
  walk fs [] q = Ok cur -> mkdir_parents fs q = Ok fs.
Proof.
  intros Hw. apply walk_locate in Hw as [Hl Hn].
  unfold mkdir_parents. rewrite mkdir_rev_unfold, rev_involutive.
  unfold os_mkdir, is_dir, stat. rewrite Hl, Hn. reflexivity.
Qed.

Lemma locate_parent (fs : t) (p cp : path) :
  locate fs p = Ok cp -> exists cur, walk fs [] (parent p) = Ok cur.
Proof.
  unfold locate, parent. destruct p as [|x p]; [simpl; eauto|].
  destruct (walk fs [] (removelast (x :: p))); [eauto | discriminate].
Qed.

(** The parent of a path that resolves is an existing directory: ensuring
    it is there leaves the filesystem as it is. *)
Lemma mkdir_parents_located (fs : t) (p cp : path) :
  locate fs p = Ok cp -> mkdir_parents fs (parent p) = Ok fs.
Proof.
  intros H. apply locate_parent in H as [cur H].
  eapply mkdir_parents_walked, H.
Qed.



Lemma os_mkdir_inv (fs fs' : t) (p : path) :
  os_mkdir fs p = Ok fs' ->
  exists cp, locate fs p = Ok cp /\ fs !! cp = None /\ cp ≠ [] /\
             fs' = <[cp := Dir]> fs.
Proof.
  unfold os_mkdir. destruct (locate fs p) as [cp|] eqn:E; [|discriminate].
  destruct (node_at fs cp) eqn:En; [discriminate|].
  intros [= <-]. exists cp. repeat split; auto using node_at_None.
  intros ->. discriminate.
Qed.






(** Directory creation only adds directories where nothing was. *)
Definition extends_by_dirs (fs fs' : t) : Prop :=
  forall cp, fs' !! cp = fs !! cp \/ (fs !! cp = None /\ fs' !! cp = Some Dir).

Lemma extends_by_dirs_refl (fs : t) : extends_by_dirs fs fs.
Proof. intros cp. auto. Qed.

Lemma extends_by_dirs_trans (fs1 fs2 fs3 : t) :
  extends_by_dirs fs1 fs2 -> extends_by_dirs fs2 fs3 ->
  extends_by_dirs fs1 fs3.
Proof.
  intros H12 H23 cp. destruct (H12 cp) as [E|[E1 E2]], (H23 cp) as [F|[F1 F2]];
    try (left; congruence); try (right; split; congruence).
Qed.

Lemma os_mkdir_extends (fs fs' : t) (p : path) :
  os_mkdir fs p = Ok fs' -> extends_by_dirs fs fs'.
Proof.
  intros H. apply os_mkdir_inv in H as (cp & _ & Hn & _ & ->). intros k.
  destruct (decide (cp = k)) as [<-|Hk].
  - right. rewrite lookup_insert_eq. auto.
  - left. apply lookup_insert_ne, Hk.
Qed.

Lemma mkdir_exist_ok_extends (fs fs' : t) (p : path) :
  mkdir_exist_ok fs p = Ok fs' -> extends_by_dirs fs fs'.
Proof.
  unfold mkdir_exist_ok. destruct (os_mkdir fs p) as [fs1|e] eqn:E.
  - intros [= <-]. eapply os_mkdir_extends, E.
  - destruct e; try discriminate; destruct (is_dir fs p); try discriminate;
      intros [= <-]; apply extends_by_dirs_refl.
Qed.

Lemma mkdir_rev_extends (rp : path) (fs fs' : t) :
  mkdir_rev fs rp = Ok fs' -> extends_by_dirs fs fs'.
Proof.
  revert fs fs'. induction rp as [|x rp IH]; intros fs fs';
    rewrite mkdir_rev_unfold;
    destruct (os_mkdir fs (rev _)) as [fs1|e] eqn:E;
    try (intros [= <-]; eapply os_mkdir_extends, E);
    destruct e; try discriminate;
    try (destruct (is_dir fs (rev _)); try discriminate;
         intros [= <-]; apply extends_by_dirs_refl).
  destruct (mkdir_rev fs rp) as [fs1|] eqn:E1; [|discriminate].
  intros H. eapply extends_by_dirs_trans; [eapply IH, E1|].
  eapply mkdir_exist_ok_extends, H.
Qed.

Lemma mkdir_parents_extends (fs fs' : t) (p : path) :
  mkdir_parents fs p = Ok fs' -> extends_by_dirs fs fs'.
Proof. apply mkdir_rev_extends. Qed.


End FSFacts.

(** ** The change applier *)

Module ApplierFacts.
Import FS FSFacts PyFacts.

Definition written (fs : FS.t) (p : path) (data : text)
  : result exn unit * FS.t :=
  match FS.write_text fs p data with
  | Ok fs' => (Ok tt, fs')
  | Err e => (Err (OSErr e), fs)
  end.

(** The loop body, with the monad unfolded. *)
Lemma apply_one_unfold (c : Change) (fs : FS.t) :
  Applier.apply_one c fs =
  let p := Path (file c) in
  match FS.mkdir_parents fs (parent p) with
  | Err e => (Err (OSErr e), fs)
  | Ok fs1 =>
      if FS.exists_ fs1 p then
        match FS.read_text fs1 p with
        | Err e => (Err (OSErr e), fs1)
        | Ok t =>
            if Applier.truthy (original c) then
              if negb (Py.contains (original c) t)
              then (Err (Applier.mismatch (file c)), fs1)
              else written fs1 p (Py.replace_first (original c) (edited c) t)
            else written fs1 p (edited c)
        end
      else written fs1 p (edited c)
  end.
Proof.
  unfold Applier.apply_one, written, mbind, Applier.M_bind, Applier.bind,
    Applier.mkdir_parents, Applier.exists_, Applier.read_text,
    Applier.write_text, Applier.raise, Applier.ret.
  cbv zeta.
  destruct (FS.mkdir_parents fs (parent (Path (file c)))) as [fs1|e];
    [|reflexivity].
  destruct (FS.exists_ fs1 (Path (file c))); [|reflexivity].
  destruct (FS.read_text fs1 (Path (file c))) as [t|e]; [|reflexivity].
  destruct (Applier.truthy (original c)); [|reflexivity].
  destruct (negb (Py.contains (original c) t)); reflexivity.
Qed.

Lemma apply_cons (c : Change) (rest : list Change) (fs : FS.t) :
  Applier.apply (c :: rest) fs =
  match Applier.apply_one c fs with
  | (Ok _, fs') => Applier.apply rest fs'
  | (Err e, fs') => (Err e, fs')
  end.
Proof. reflexivity. Qed.

Lemma apply_app (before rest : list Change) (fs : FS.t) :
  Applier.apply (before ++ rest) fs =
  match Applier.apply before fs with
  | (Ok _, fs') => Applier.apply rest fs'
  | (Err e, fs') => (Err e, fs')
  end.
Proof.
  revert fs. induction before as [|c before IH]; intros fs; [reflexivity|].
  cbn [app]. rewrite !apply_cons.
  destruct (Applier.apply_one c fs) as [[[]|e] fs']; [apply IH | reflexivity].
Qed.

Lemma apply_single (c : Change) (fs : FS.t) :
  Applier.apply [c] fs = Applier.apply_one c fs.
Proof.
  rewrite apply_cons.
  destruct (Applier.apply_one c fs) as [[[]|e] fs']; reflexivity.
Qed.

Lemma read_text_inv (fs : FS.t) (p : path) (t : text) :
  FS.read_text fs p = Ok t ->
  exists cp, locate fs p = Ok cp /\ cp ≠ [] /\ fs !! cp = Some (File t).
Proof.
  unfold FS.read_text, stat.
  destruct (locate fs p) as [cp|] eqn:E; [|discriminate].
  destruct cp as [|x cp]; [discriminate|]. rewrite node_at_cons.
  destruct (fs !! (x :: cp)) as [[c|]|] eqn:F; try discriminate.
  intros [= ->]. exists (x :: cp). repeat split; auto; congruence.
Qed.

Lemma read_text_exists (fs : FS.t) (p : path) (t : text) :
  FS.read_text fs p = Ok t -> FS.exists_ fs p = true.
Proof.
  unfold FS.read_text, FS.exists_. destruct (stat fs p); [auto|discriminate].
Qed.

(** Writing a file does not disturb a walk: walks only pass through
    directories. *)
Lemma walk_insert_file (fs : FS.t) (k : path) (d : text) (q cur c : path) :
  fs !! k ≠ Some Dir -> walk fs cur q = Ok c ->
  walk (<[k := File d]> fs) cur q = Ok c.
Proof.
  intros Hk. revert cur. induction q as [|x q IH]; intros cur Hw;
    simpl in *; [exact Hw|].
  destruct (decide (x = dotdot)); [auto|].
  destruct (fs !! (cur ++ [x])) as [[?|]|] eqn:E; try discriminate.
  rewrite lookup_insert_ne by congruence. rewrite E. auto.
Qed.

Lemma write_text_inv (fs fs' : FS.t) (p : path) (d : text) :
  FS.write_text fs p d = Ok fs' ->
  exists cp, locate fs p = Ok cp /\ cp ≠ [] /\ fs !! cp ≠ Some Dir /\
             fs' = <[cp := File d]> fs.
Proof.
  unfold FS.write_text. destruct (locate fs p) as [cp|] eqn:E; [|discriminate].
  destruct cp as [|x cp]; [discriminate|]. rewrite node_at_cons.
  destruct (fs !! (x :: cp)) as [[c|]|] eqn:F; try discriminate;
    intros [= <-]; exists (x :: cp); repeat split; congruence.
Qed.

(** What was written is what is read back. *)
Lemma read_text_written (fs fs' : FS.t) (p : path) (d : text) :
  FS.write_text fs p d = Ok fs' -> FS.read_text fs' p = Ok d.
Proof.
  intros H. apply write_text_inv in H as (cp & Hl & Hne & Hnd & ->).
  assert (locate (<[cp := File d]> fs) p = Ok cp) as Hl'.
  { revert Hl. unfold locate. destruct p as [|x p]; [auto|].
    destruct (walk fs [] (removelast (x :: p))) eqn:E; [|discriminate].
    rewrite (walk_insert_file _ _ _ _ _ _ Hnd E). auto. }
  unfold FS.read_text, stat. rewrite Hl'. destruct cp; [congruence|].
  rewrite node_at_cons, lookup_insert_eq. reflexivity.
Qed.

Lemma write_text_file (fs : FS.t) (p cp : path) (t d : text) :
  locate fs p = Ok cp -> fs !! cp = Some (File t) -> cp ≠ [] ->
  FS.write_text fs p d = Ok (<[cp := File d]> fs).
Proof.
  intros Hl Hf Hne. unfold FS.write_text. rewrite Hl.
  destruct cp; [congruence|]. rewrite node_at_cons, Hf. reflexivity.
Qed.

(** The loop body on an existing file. *)
Lemma apply_one_existing (c : Change) (fs : FS.t) (t : text) :
  FS.read_text fs (Path (file c)) = Ok t ->
  exists cp,
    locate fs (Path (file c)) = Ok cp /\ fs !! cp = Some (File t) /\
    Applier.apply_one c fs =
    if Applier.truthy (original c) then
      if negb (Py.contains (original c) t)
      then (Err (Applier.mismatch (file c)), fs)
      else (Ok tt,
            <[cp := File (Py.replace_first (original c) (edited c) t)]> fs)
    else (Ok tt, <[cp := File (edited c)]> fs).
Proof.
  intros Hr. destruct (read_text_inv _ _ _ Hr) as (cp & Hl & Hne & Hf).
  exists cp. split; [exact Hl|]. split; [exact Hf|].
  rewrite apply_one_unfold. cbv zeta.
  rewrite (mkdir_parents_located _ _ _ Hl), (read_text_exists _ _ _ Hr), Hr.
  unfold written. rewrite !(write_text_file _ _ _ _ _ Hl Hf Hne).
  reflexivity.
Qed.


End ApplierFacts.

Module ApplierSpec.
Import FS FSFacts PyFacts ApplierFacts.



(** C2.  In a batch whose earlier changes have been applied, a change with
    a non-empty [original] that does not occur in its existing target file
    makes [apply] raise the mismatch error naming that file.  The
    filesystem is left exactly as the earlier changes made it: nothing is
    written for the failing change, and no later change is attempted. *)
Theorem apply_mismatch_fails_fast
    (fs fs0 : FS.t) (before after : list Change) (c : Change) (t : text) :
  Applier.apply before fs = (Ok tt, fs0) ->
  FS.read_text fs0 (Path (file c)) = Ok t ->
  Applier.truthy (original c) = true ->
  Py.contains (original c) t = false ->
  Applier.apply (before ++ c :: after) fs =
    (Err (RuntimeError (Py.str "Mismatch in " ++ file c)), fs0).
Proof.
  intros Hb Hr Ht Hc.
  rewrite apply_app, Hb, apply_cons.
  destruct (apply_one_existing c fs0 _ Hr) as (cp & _ & _ & ->).
  rewrite Ht, Hc. reflexivity.
Qed.

Lemma apply_mismatch_fails_fast_witness :
  Applier.apply [Sample.create_b] Sample.fs_hello
    = (Ok tt, <[ [Py.str "b.txt"] := File (Py.str "y") ]> Sample.fs_hello) /\
  FS.read_text (<[ [Py.str "b.txt"] := File (Py.str "y") ]> Sample.fs_hello)
    (Path (file Sample.zzz_to_bar)) = Ok (Py.str "hello foo world") /\
  Applier.truthy (original Sample.zzz_to_bar) = true /\
  Py.contains (original Sample.zzz_to_bar) (Py.str "hello foo world") = false /\
  Applier.apply ([Sample.create_b] ++ Sample.zzz_to_bar :: [Sample.create_x])
    Sample.fs_hello =
    (Err (RuntimeError (Py.str "Mismatch in a.txt")),
     <[ [Py.str "b.txt"] := File (Py.str "y") ]> Sample.fs_hello).
Proof.
  assert (Applier.apply [Sample.create_b] Sample.fs_hello
          = (Ok tt, <[ [Py.str "b.txt"] := File (Py.str "y") ]> Sample.fs_hello))
    as H1 by (vm_compute; reflexivity).
  assert (FS.read_text
            (<[ [Py.str "b.txt"] := File (Py.str "y") ]> Sample.fs_hello)
            (Path (file Sample.zzz_to_bar)) = Ok (Py.str "hello foo world"))
    as H2 by (vm_compute; reflexivity).
  assert (Applier.truthy (original Sample.zzz_to_bar) = true) as H3
    by reflexivity.
  assert (Py.contains (original Sample.zzz_to_bar) (Py.str "hello foo world")
          = false) as H4 by reflexivity.
  repeat (split; [assumption|]).
  exact (apply_mismatch_fails_fast _ _ [Sample.create_b] [Sample.create_x]
           Sample.zzz_to_bar _ H1 H2 H3 H4).
Defined.

(** The scenario of the specification: the anchor ["zzz"] is not in
    [a.txt]; the error is raised and the file is unchanged. *)
Example apply_zzz_unchanged :
  Applier.apply [Sample.zzz_to_bar] Sample.fs_hello =
    (Err (RuntimeError (Py.str "Mismatch in a.txt")), Sample.fs_hello).
Proof. vm_compute. reflexivity. Qed.

(** C3, as stated, does not hold: ["foo"] occurs twice in ["foo foo"], and
    [apply] succeeds, rewriting the first occurrence. *)
Lemma apply_twice_occurring_succeeds :
  FS.read_text Sample.fs_twice (Path (file Sample.foo_to_bar))
    = Ok (Py.str "foo foo") /\
  Py.occurrences (original Sample.foo_to_bar) (Py.str "foo foo") = 2 /\
  Applier.apply [Sample.foo_to_bar] Sample.fs_twice =
    (Ok tt, {[ [Sample.a_txt] := File (Py.str "bar foo") ]}).
Proof. vm_compute. auto. Qed.

(** C3, amended.  On an existing file and with a non-empty [original],
    [apply] fails, writing nothing, exactly when [original] does not occur
    in the content; when it occurs, once or more often, [apply] succeeds
    and replaces the leftmost occurrence only. *)
Theorem apply_anchor_check
    (fs : FS.t) (c : Change) (t : text) :
  FS.read_text fs (Path (file c)) = Ok t ->
  Applier.truthy (original c) = true ->
  (Py.contains (original c) t = false ->
   Applier.apply [c] fs =
     (Err (RuntimeError (Py.str "Mismatch in " ++ file c)), fs)) /\
  (Py.contains (original c) t = true ->
   exists cp pre post,
     locate fs (Path (file c)) = Ok cp /\
     t = pre ++ original c ++ post /\
     Py.find (original c) t = Some (length pre) /\
     Applier.apply [c] fs =
       (Ok tt, <[cp := File (pre ++ edited c ++ post)]> fs)).
Proof.
  intros Hr Ht.
  destruct (apply_one_existing c fs _ Hr) as (cp & Hl & Hf & Ha).
  rewrite Ht in Ha. rewrite apply_single. split; intros Hc;
    rewrite Hc in Ha; simpl in Ha; [exact Ha|].
  destruct (find_contains _ _ Hc) as [i Hi].
  destruct (find_split _ _ _ Hi) as (pre & post & -> & <-).
  exists cp, pre, post. repeat split; auto.
  rewrite Ha, (replace_first_at _ _ _ _ Hi). reflexivity.
Qed.

Lemma apply_anchor_check_witness :
  FS.read_text Sample.fs_twice (Path (file Sample.foo_to_bar))
    = Ok (Py.str "foo foo") /\
  Applier.truthy (original Sample.foo_to_bar) = true /\
  (Py.contains (original Sample.foo_to_bar) (Py.str "foo foo") = false ->
   Applier.apply [Sample.foo_to_bar] Sample.fs_twice =
     (Err (RuntimeError (Py.str "Mismatch in " ++ file Sample.foo_to_bar)),
      Sample.fs_twice)) /\
  (Py.contains (original Sample.foo_to_bar) (Py.str "foo foo") = true ->
   exists cp pre post,
     locate Sample.fs_twice (Path (file Sample.foo_to_bar)) = Ok cp /\
     Py.str "foo foo" = pre ++ original Sample.foo_to_bar ++ post /\
     Py.find (original Sample.foo_to_bar) (Py.str "foo foo")
       = Some (length pre) /\
     Applier.apply [Sample.foo_to_bar] Sample.fs_twice =
       (Ok tt, <[cp := File (pre ++ edited Sample.foo_to_bar ++ post)]>
                 Sample.fs_twice)).
Proof.
  assert (FS.read_text Sample.fs_twice (Path (file Sample.foo_to_bar))
          = Ok (Py.str "foo foo")) as H1 by (vm_compute; reflexivity).
  assert (Applier.truthy (original Sample.foo_to_bar) = true) as H2
    by reflexivity.
  repeat (split; [assumption|]).
  exact (apply_anchor_check Sample.fs_twice Sample.foo_to_bar
           (Py.str "foo foo") H1 H2).
Defined.





(** The scenario of the specification: [a.txt] does not exist and is
    created with content ["x"]. *)
Example apply_creates_a_txt :
  Applier.apply [Sample.create_x] ∅ =
    (Ok tt, {[ [Sample.a_txt] := File (Py.str "x") ]}).
Proof. vm_compute. reflexivity. Qed.



(** Directory creation is not undone by the failure: the failing change
    names [a.txt] through the missing directory [new], which exists
    afterwards although the file is untouched. *)
Example apply_mismatch_leaves_directory :
  Sample.fs_hello !! [Py.str "new"] = None /\
  snd (Applier.apply [Sample.zzz_via_new] Sample.fs_hello) !! [Py.str "new"]
    = Some Dir /\
  snd (Applier.apply [Sample.zzz_via_new] Sample.fs_hello) !! [Sample.a_txt]
    = Sample.fs_hello !! [Sample.a_txt].
Proof. vm_compute. auto. Qed.

End ApplierSpec.

(** ** The JSON recogniser *)

Module JsonFacts.
Import Json.

Lemma is_char_eq (c : ascii) (d : ascii) :
  is_char c (String d EmptyString) = true <-> c = d.
Proof. apply PyFacts.ch_eqb_eq. Qed.

Lemma run_app (cfg : state * list ctx) (s x : text) :
  run cfg (s ++ x) = run (run cfg s) x.
Proof. apply fold_left_app. Qed.

Lemma run_fail (stk : list ctx) (s : text) : run (Fail, stk) s = (Fail, stk).
Proof. induction s as [|c s IH]; [reflexivity | exact IH]. Qed.

(** At top level, after the value, the reader stays where it is or fails. *)
Lemma run_after_top (s : text) :
  run (After, []) s = (After, []) \/ run (After, []) s = (Fail, []).
Proof.
  induction s as [|c s IH]; [auto|].
  change (run (After, []) (c :: s)) with (run (step_after [] c) s).
  unfold step_after. destruct (is_ws c); [exact IH|].
  right. apply run_fail.
Qed.

Lemma step_after_rbrace (stk : list ctx) :
  accepting (step_after stk "}") = true -> step_after stk "}" = (After, []).
Proof.
  unfold step_after. change (is_ws "}") with false. cbv iota.
  destruct stk as [|[] [|? ?]]; simpl; congruence.
Qed.

(** A closing brace that is accepted as the last character ends the
    top-level value. *)
Lemma step_rbrace (cfg : state * list ctx) :
  accepting (step cfg "}") = true -> step cfg "}" = (After, []).
Proof.
  destruct cfg as [st stk]. destruct st as [a| | | | |k|k|k m|n|r|];
    try (cbn; discriminate).
  - cbn. destruct stk as [|[] [|? ?]]; simpl; congruence.
  - apply step_after_rbrace.
  - destruct n; try (cbn; discriminate); exact (step_after_rbrace stk).
  - unfold step. destruct r as [|d r]; [simpl; discriminate|].
    destruct (Py.ch_eqb "}" d); [|simpl; discriminate].
    destruct r; simpl; [|discriminate].
    destruct stk; [reflexivity | discriminate].
Qed.

(** A text that ends with a closing brace and is accepted leaves the reader
    after the top-level value. *)
Lemma run_accepted_rbrace (s : text) :
  loads_ok (s ++ ["}"%char]) = true -> run start (s ++ ["}"%char]) = (After, []).
Proof.
  unfold loads_ok. rewrite run_app.
  change (run (run start s) ["}"%char]) with (step (run start s) "}").
  apply step_rbrace.
Qed.

(** No accepted text that ends with a closing brace has an accepted proper
    extension that ends with a closing brace. *)
Lemma loads_ok_no_extension (s x : text) :
  loads_ok (s ++ ["}"%char]) = true ->
  loads_ok ((s ++ ["}"%char]) ++ x ++ ["}"%char]) = false.
Proof.
  intros H. unfold loads_ok.
  rewrite run_app, (run_accepted_rbrace _ H), run_app.
  destruct (run_after_top x) as [-> | ->]; reflexivity.
Qed.

End JsonFacts.

(** ** [extract_json] *)

Module MainFacts.
Import Main JsonFacts.

Lemma is_rbrace (c : ascii) : Json.is_char c "}" = true <-> c = "}"%char.
Proof. apply is_char_eq. Qed.

Lemma firstn_snoc (l : text) (n : nat) (x : ascii) :
  nth_error l n = Some x -> firstn (S n) l = firstn n l ++ [x].
Proof.
  revert n. induction l as [|a l IH]; intros [|n] H; simpl in *;
    try discriminate.
  - injection H as ->. reflexivity.
  - f_equal. apply IH, H.
Qed.

(** What the loop returns: the candidate at the last closing brace whose
    candidate is accepted, if there is one. *)
Lemma back_scan_spec (txt : text) (start n : nat) :
  match back_scan txt start n with
  | Some c =>
      exists k, 1 <= k <= n /\
        Py.char_at txt (start + k) = Some "}"%char /\
        c = candidate txt start (start + k) /\
        Json.loads_ok c = true /\
        forall k', k < k' <= n ->
          Py.char_at txt (start + k') = Some "}"%char ->
          Json.loads_ok (candidate txt start (start + k')) = false
  | None =>
      forall k, 1 <= k <= n ->
        Py.char_at txt (start + k) = Some "}"%char ->
        Json.loads_ok (candidate txt start (start + k)) = false
  end.
Proof.
  induction n as [|n IH]; [intros k Hk; lia|].
  cbn [back_scan]. cbv zeta. fold (candidate txt start (start + S n)).
  assert (forall c, Py.char_at txt (start + S n) = Some c ->
            Json.is_char c "}" = false ->
            Py.char_at txt (start + S n) <> Some "}"%char) as Hno.
  { intros c Hc Hf Hc'. rewrite Hc in Hc'. injection Hc' as ->.
    discriminate. }
  assert (match back_scan txt start n with
          | Some c =>
              (Py.char_at txt (start + S n) = Some "}"%char ->
               Json.loads_ok (candidate txt start (start + S n)) = false) ->
              exists k, 1 <= k <= S n /\
                Py.char_at txt (start + k) = Some "}"%char /\
                c = candidate txt start (start + k) /\
                Json.loads_ok c = true /\
                forall k', k < k' <= S n ->
                  Py.char_at txt (start + k') = Some "}"%char ->
                  Json.loads_ok (candidate txt start (start + k')) = false
          | None =>
              (Py.char_at txt (start + S n) = Some "}"%char ->
               Json.loads_ok (candidate txt start (start + S n)) = false) ->
              forall k, 1 <= k <= S n ->
                Py.char_at txt (start + k) = Some "}"%char ->
                Json.loads_ok (candidate txt start (start + k)) = false
          end) as Hskip.
  { destruct (back_scan txt start n) as [c|].
    - intros Hlast. destruct IH as (k & Hk & Hc & -> & Hok & Hmax).
      exists k. repeat split; auto; try lia.
      intros k' Hk' Hc'. destruct (decide (k' = S n)) as [->|]; [auto|].
      apply Hmax; [lia | exact Hc'].
    - intros Hlast k Hk Hc. destruct (decide (k = S n)) as [->|]; [auto|].
      apply IH; [lia | exact Hc]. }
  destruct (Py.char_at txt (start + S n)) as [c|] eqn:Hc.
  - destruct (Json.is_char c "}") eqn:Hb.
    + apply is_rbrace in Hb as ->.
      destruct (Json.loads_ok (candidate txt start (start + S n))) eqn:Hok.
      * exists (S n). repeat split; auto; try lia.
      * destruct (back_scan txt start n); apply Hskip; auto.
    + destruct (back_scan txt start n); apply Hskip; intros Hc';
        destruct (Hno c eq_refl Hb Hc').
  - destruct (back_scan txt start n); apply Hskip; discriminate.
Qed.

Lemma find_some_lt (sub s : text) (i : nat) :
  sub <> [] -> Py.find sub s = Some i -> i < length s.
Proof.
  intros Hne. revert i. induction s as [|a s IH]; intros i; simpl.
  - destruct sub; [congruence | discriminate].
  - destruct (Py.startswith sub (a :: s)); [intros [= <-]; lia|].
    destruct (Py.find sub s) as [j|]; [|discriminate].
    intros [= <-]. specialize (IH j eq_refl). lia.
Qed.

Lemma extract_json_unfold (txt : text) (start : nat) :
  Py.find lbrace txt = Some start ->
  extract_json txt =
  match back_scan txt start (length txt - 1 - start) with
  | Some c => c
  | None => fallback txt start
  end.
Proof. unfold extract_json. intros ->. reflexivity. Qed.

(** What [extract_json] returns on a text with an opening brace. *)
Lemma extract_json_spec (txt : text) (start : nat) :
  Py.find lbrace txt = Some start ->
  ((forall i, closing txt start i ->
      Json.loads_ok (candidate txt start i) = false) /\
   extract_json txt = fallback txt start) \/
  (exists i, closing txt start i /\
     Json.loads_ok (candidate txt start i) = true /\
     extract_json txt = candidate txt start i /\
     forall j, closing txt start j ->
       Json.loads_ok (candidate txt start j) = true -> j <= i).
Proof.
  intros Hf. rewrite (extract_json_unfold _ _ Hf).
  assert (start < length txt) as Hlt
    by (eapply find_some_lt; [|exact Hf]; discriminate).
  pose proof (back_scan_spec txt start (length txt - 1 - start)) as H.
  destruct (back_scan txt start (length txt - 1 - start)) as [c|].
  - right. destruct H as (k & Hk & Hc & -> & Hok & Hmax).
    exists (start + k). repeat split; auto; try lia.
    intros j [Hj Hcj] Hokj.
    destruct (le_lt_dec j (start + k)) as [|Hgt]; [assumption|].
    replace j with (start + (j - start)) in Hcj, Hokj by lia.
    rewrite (Hmax (j - start)) in Hokj; [discriminate | lia | exact Hcj].
  - left. split; [|reflexivity]. intros i [Hi Hci].
    replace i with (start + (i - start)) in * by lia.
    apply H; [lia | exact Hci].
Qed.

Lemma find_lbrace_app (pre rest : text) :
  Py.contains lbrace pre = false ->
  Py.find lbrace (pre ++ "{"%char :: rest) = Some (length pre).
Proof.
  induction pre as [|a pre IH]; intros H; [reflexivity|].
  simpl in H. apply orb_false_iff in H as [Ha Hpre].
  cbn [app]. rewrite PyFacts.find_unfold.
  assert (Py.startswith lbrace (a :: pre ++ "{"%char :: rest) = false) as ->
    by (rewrite <- Ha; reflexivity).
  rewrite (IH Hpre). reflexivity.
Qed.

Lemma candidate_app (pre rest : text) (k : nat) :
  candidate (pre ++ rest) (length pre) (length pre + k) = firstn (k + 1) rest.
Proof.
  unfold candidate, Py.slice.
  replace (length pre + k + 1) with (length pre + (k + 1)) by lia.
  rewrite firstn_app_2, skipn_app, skipn_all, Nat.sub_diag. reflexivity.
Qed.

Lemma char_at_app (pre rest : text) (k : nat) :
  Py.char_at (pre ++ rest) (length pre + k) = Py.char_at rest k.
Proof.
  unfold Py.char_at. rewrite nth_error_app2 by lia. f_equal. lia.
Qed.

End MainFacts.

Module ExtractSpec.
Import Main JsonFacts MainFacts.

(** C4, as stated, does not hold: the text holds exactly one valid JSON
    object, the slice of length 7 at index 9, but prose before it has a
    brace, and [extract_json] returns everything from that brace on, which
    is not JSON. *)
Lemma extract_json_prose_brace :
  json_objects Sample.prose_braces = [(9, 7)] /\
  Py.slice Sample.prose_braces 9 16 = Sample.q "{'a':1}" /\
  extract_json Sample.prose_braces = Sample.q "{x}: {'a':1}" /\
  Json.loads_ok (extract_json Sample.prose_braces) = false.
Proof. vm_compute. auto. Qed.

(** C4, amended.  When no opening brace occurs in the prose before a valid
    JSON object (a text from [{] to [}] that [json.loads] accepts),
    [extract_json] returns exactly the text of that object, whatever
    follows it. *)
Theorem extract_json_object (pre obj post : text) :
  Py.contains lbrace pre = false ->
  Py.startswith lbrace obj = true ->
  Py.startswith rbrace (rev obj) = true ->
  Json.loads_ok obj = true ->
  extract_json (pre ++ obj ++ post) = obj /\
  Json.loads_ok (extract_json (pre ++ obj ++ post)) = true.
Proof.
  intros Hpre Hopen Hclose Hok.
  enough (extract_json (pre ++ obj ++ post) = obj) as E
    by (rewrite E; auto).
  pose proof (PyFacts.startswith_inv _ _ Hopen) as Eo.
  destruct obj as [|o r]; [discriminate|].
  change (o :: r = "{"%char :: skipn 1 (o :: r)) in Eo.
  injection Eo as ->.
  pose proof (PyFacts.startswith_inv _ _ Hclose) as Hrev.
  apply (f_equal (@rev ascii)) in Hrev.
  rewrite rev_involutive, rev_app_distr in Hrev.
  change (rev rbrace) with ["}"%char] in Hrev.
  set (body := rev (skipn (length rbrace) (rev ("{"%char :: r)))) in *.
  assert (1 <= length body) as Hbody.
  { destruct body; [discriminate | simpl; lia]. }
  pose proof (find_lbrace_app pre (r ++ post) Hpre) as Hfind.
  change (pre ++ "{"%char :: r ++ post)
    with (pre ++ ("{"%char :: r) ++ post) in Hfind.
  set (obj := "{"%char :: r) in *.
  assert (length obj = length body + 1) as Hlen
    by (rewrite Hrev, length_app; reflexivity).
  assert (closing (pre ++ obj ++ post) (length pre)
            (length pre + length body)) as Hcl.
  { split.
    - rewrite !length_app. lia.
    - rewrite char_at_app, Hrev, <- app_assoc. unfold Py.char_at.
      rewrite nth_error_app2, Nat.sub_diag by lia. reflexivity. }
  assert (candidate (pre ++ obj ++ post) (length pre)
            (length pre + length body) = obj) as Hcand.
  { rewrite candidate_app, <- Hlen.
    rewrite <- (Nat.add_0_r (length obj)), firstn_app_2.
    exact (app_nil_r obj). }
  destruct (extract_json_spec _ _ Hfind) as [[Hnone _]|(i & Hi & Hoki & -> & Hmax)].
  - specialize (Hnone _ Hcl). rewrite Hcand, Hok in Hnone. discriminate.
  - assert (length pre + length body <= i) as Hle
      by (apply Hmax; [exact Hcl | rewrite Hcand; exact Hok]).
    destruct (decide (i = length pre + length body)) as [->|Hne];
      [exact Hcand|].
    exfalso. destruct Hi as [Hi Hci].
    replace i with (length pre + (length obj + (i - length pre - length obj)))
      in Hci, Hoki by lia.
    set (m := i - length pre - length obj) in *.
    rewrite char_at_app in Hci. unfold Py.char_at in Hci.
    rewrite nth_error_app2 in Hci by lia.
    replace (length obj + m - length obj) with m in Hci by lia.
    rewrite candidate_app in Hoki.
    replace (length obj + m + 1) with (length obj + S m) in Hoki by lia.
    rewrite firstn_app_2, (firstn_snoc _ _ _ Hci), Hrev in Hoki.
    rewrite Hrev in Hok.
    rewrite (loads_ok_no_extension body (firstn m post) Hok) in Hoki.
    discriminate.
Qed.

Lemma extract_json_object_witness :
  Py.contains lbrace Sample.wrapped_pre = false /\
  Py.startswith lbrace Sample.wrapped_obj = true /\
  Py.startswith rbrace (rev Sample.wrapped_obj) = true /\
  Json.loads_ok Sample.wrapped_obj = true /\
  extract_json (Sample.wrapped_pre ++ Sample.wrapped_obj ++ Sample.wrapped_post)
    = Sample.wrapped_obj /\
  Json.loads_ok
    (extract_json
       (Sample.wrapped_pre ++ Sample.wrapped_obj ++ Sample.wrapped_post))
    = true.
Proof.
  assert (Py.contains lbrace Sample.wrapped_pre = false) as H1
    by (vm_compute; reflexivity).
  assert (Py.startswith lbrace Sample.wrapped_obj = true) as H2
    by (vm_compute; reflexivity).
  assert (Py.startswith rbrace (rev Sample.wrapped_obj) = true) as H3
    by (vm_compute; reflexivity).
  assert (Json.loads_ok Sample.wrapped_obj = true) as H4
    by (vm_compute; reflexivity).
  repeat (split; [assumption|]).
  exact (extract_json_object Sample.wrapped_pre Sample.wrapped_obj
           Sample.wrapped_post H1 H2 H3 H4).
Defined.

(** C5, as stated, does not hold: for an object with a trailing comma no
    candidate is valid, and the fallback returns the text from the first
    [{] to the last [}] all the same. *)
Lemma extract_json_returns_invalid :
  extract_json Sample.trailing_comma = Sample.trailing_comma /\
  Py.startswith lbrace (extract_json Sample.trailing_comma) = true /\
  Py.startswith rbrace (rev (extract_json Sample.trailing_comma)) = true /\
  Json.loads_ok (extract_json Sample.trailing_comma) = false.
Proof. vm_compute. auto. Qed.

(** C5, amended.  On a text with an opening brace: if some slice from the
    first [{] to a later [}] is valid JSON, [extract_json] returns the
    longest such slice, which is valid JSON; if none is, it returns the
    fallback slice, from the first [{] through the last [}] of the text,
    without validating it. *)
Theorem extract_json_valid_or_fallback (txt : text) (start : nat) :
  Py.find lbrace txt = Some start ->
  ((exists i, closing txt start i /\
      Json.loads_ok (candidate txt start i) = true) ->
   exists i, closing txt start i /\
     extract_json txt = candidate txt start i /\
     Json.loads_ok (extract_json txt) = true /\
     forall j, closing txt start j ->
       Json.loads_ok (candidate txt start j) = true -> j <= i) /\
  ((forall i, closing txt start i ->
      Json.loads_ok (candidate txt start i) = false) ->
   extract_json txt = fallback txt start).
Proof.
  intros Hf.
  destruct (extract_json_spec _ _ Hf) as [[Hnone E]|(i & Hi & Hok & E & Hmax)].
  - split; [|auto]. intros (i & Hi & Hok). rewrite (Hnone _ Hi) in Hok.
    discriminate.
  - split.
    + intros _. exists i. rewrite E. auto.
    + intros Hnone. rewrite (Hnone _ Hi) in Hok. discriminate.
Qed.

Lemma extract_json_valid_or_fallback_witness :
  Py.find lbrace Sample.trailing_comma = Some 0 /\
  ((exists i, closing Sample.trailing_comma 0 i /\
      Json.loads_ok (candidate Sample.trailing_comma 0 i) = true) ->
   exists i, closing Sample.trailing_comma 0 i /\
     extract_json Sample.trailing_comma = candidate Sample.trailing_comma 0 i /\
     Json.loads_ok (extract_json Sample.trailing_comma) = true /\
     forall j, closing Sample.trailing_comma 0 j ->
       Json.loads_ok (candidate Sample.trailing_comma 0 j) = true -> j <= i) /\
  ((forall i, closing Sample.trailing_comma 0 i ->
      Json.loads_ok (candidate Sample.trailing_comma 0 i) = false) ->
   extract_json Sample.trailing_comma = fallback Sample.trailing_comma 0).
Proof.
  assert (Py.find lbrace Sample.trailing_comma = Some 0) as H1
    by (vm_compute; reflexivity).
  split; [exact H1|].
  exact (extract_json_valid_or_fallback Sample.trailing_comma 0 H1).
Defined.

End ExtractSpec.

(** ** The decision loop *)

Module LoopFacts.
Import Loop.

Lemma commands_run_app (tr tr' : list event) :
  commands_run (tr ++ tr') = commands_run tr ++ commands_run tr'.
Proof. apply flat_map_app. Qed.

Lemma accesses_app (tr tr' : list event) :
  accesses (tr ++ tr') = accesses tr ++ accesses tr'.
Proof. apply List.filter_app. Qed.

Section WithEnv.

Variable E : Env.

Lemma run_command_spec (cmd : text) (captured : bool) (w : World) :
  run_command E cmd captured w =
  (fst (subprocess_run E cmd (files w)),
   log (Run cmd captured) (set_files (snd (subprocess_run E cmd (files w))) w)).
Proof.
  unfold run_command. destruct (subprocess_run E cmd (files w)). reflexivity.
Qed.

(** The loop that runs every command: each one is run once, in order, with
    its output captured; in mission mode the outputs are appended to the
    instruction. *)
Lemma run_all_spec (commands : list Command) (instruction : text) (w : World) :
  cfg (snd (run_all E commands instruction w)) = cfg w /\
  calls (snd (run_all E commands instruction w)) = calls w /\
  reads (snd (run_all E commands instruction w)) = reads w /\
  trace (snd (run_all E commands instruction w))
    = trace w ++ map (fun c => Run (command c) true) commands /\
  (mission_mode (cfg w) = true ->
   fst (run_all E commands instruction w)
     = instruction ++ feedback E commands (files w)).
Proof.
  revert instruction w.
  induction commands as [|c rest IH]; intros instruction w.
  - simpl. rewrite !app_nil_r. auto.
  - cbn [run_all feedback map]. rewrite run_command_spec.
    destruct (subprocess_run E (command c) (files w)) as [res fs'] eqn:Hrun.
    cbn [fst snd]. set (w' := log _ _).
    assert (cfg w' = cfg w) as Hcfg by reflexivity.
    assert (trace w' = trace w ++ [Run (command c) true]) as Htr
      by reflexivity.
    assert (files w' = fs') as Hfs by reflexivity.
    destruct (mission_mode (cfg w')) eqn:Hm.
    + destruct (IH (instruction ++ command_results (command c) res) w')
        as (H1 & H2 & H3 & H4 & H5).
      rewrite H1, H2, H3, H4, Htr, <- app_assoc.
      repeat split; auto. intros _. rewrite H5 by exact Hm.
      rewrite Hfs, <- app_assoc. reflexivity.
    + destruct (IH instruction w') as (H1 & H2 & H3 & H4 & H5).
      rewrite H1, H2, H3, H4, Htr, <- app_assoc.
      repeat split; auto. rewrite <- Hcfg, Hm. discriminate.
Qed.

Lemma commands_run_runs (commands : list Command) :
  commands_run (map (fun c => Run (command c) true) commands)
  = map (fun c => (command c, true)) commands.
Proof.
  induction commands as [|c rest IH]; [reflexivity|].
  simpl. f_equal. exact IH.
Qed.

(** After the commands, an accepted proposal runs no further command. *)
Lemma accept_commands_run (args : Args) (data : Response.t)
    (instruction : text) (w : World) :
  commands_run (trace (snd (accept E args data instruction w)))
  = commands_run
      (trace (snd (run_commands E args (Response.commands data)
                     instruction w))).
Proof.
  unfold accept.
  destruct (run_commands E args (Response.commands data) instruction w)
    as [instruction1 w1].
  cbn [snd].
  destruct (negb (truthy (Response.changes data))); [reflexivity|].
  destruct (Applier.apply (Response.changes data) (files w1)) as [[[]|e] fs'].
  - cbv zeta.
    set (w2 := set_files fs' w1).
    set (w3 := if negb (arg_fast args || fast_mode (cfg w2))
               then snd (input E w2) else w2).
    assert (trace w3 = trace w1) as Htr
      by (unfold w3; destruct (negb _); reflexivity).
    set (w4 := log _ w3).
    assert (commands_run (trace w4) = commands_run (trace w1)) as H4.
    { unfold w4. cbn [trace log]. rewrite commands_run_app, Htr.
      apply app_nil_r. }
    destruct ((arg_fast args || fast_mode (cfg w4))
              && negb (mission_mode (cfg w4))); [exact H4|].
    destruct (mission_mode (cfg w4)); [|exact H4].
    destruct (mission_complete data); [|exact H4].
    cbn [snd set_mission_mode log trace]. rewrite commands_run_app, H4.
    apply app_nil_r.
  - cbv zeta. destruct (mission_mode (cfg (set_files fs' w1))); reflexivity.
Qed.

(** The instruction an accepted proposal passes on is the one the
    commands left. *)
Lemma accept_again (args : Args) (data : Response.t)
    (instruction instruction' : text) (md : option mission_data) (w : World) :
  fst (accept E args data instruction w) = Again instruction' md ->
  instruction'
  = fst (run_commands E args (Response.commands data) instruction w).
Proof.
  unfold accept.
  destruct (run_commands E args (Response.commands data) instruction w)
    as [instruction1 w1].
  cbn [fst].
  destruct (negb (truthy (Response.changes data))); [discriminate|].
  destruct (Applier.apply (Response.changes data) (files w1)) as [[[]|e] fs'];
    cbv zeta.
  - destruct (_ && _); [discriminate|].
    destruct (mission_mode _); [|discriminate].
    destruct (mission_complete data); [discriminate|].
    cbn [fst]. congruence.
  - destruct (mission_mode _); [|discriminate]. cbn [fst]. congruence.
Qed.

(** A turn whose reply parses goes on with the sub-step, if any. *)
Lemma turn_parsed (instruction : text) (args : Args)
    (md : option mission_data) (w w0 : World)
    (response_text raw : text) (data : Response.t) :
  dispatch E instruction args w = (false, w0) ->
  get_provider (active_provider (cfg w0)) = true ->
  provider_call E (calls w0) = Responds response_text raw ->
  parse E response_text = Parsed data ->
  turn E instruction args md w =
  let instruction1 := expand (cfg w0) instruction in
  let plan_only := arg_plan args || planning_mode (cfg w0) in
  let fast := arg_fast args || fast_mode (cfg w0) in
  let w1 := snd (thinking E instruction1 plan_only fast md w0) in
  match substep E instruction1 plan_only data w1 with
  | Some r => r
  | None =>
      match present E args fast data w1 with
      | None => (Raise, w1)
      | Some w2 => interact E args data instruction1 w2
      end
  end.
Proof.
  intros Hd Hp Hr Hparse. unfold turn. rewrite Hd, Hp. cbn [negb].
  unfold thinking. rewrite Hr, Hparse. reflexivity.
Qed.

Lemma handle_again (fuel : nat) (instruction instruction' : text)
    (args : Args) (md md' : option mission_data) (w w' : World) :
  turn E instruction args md w = (Again instruction' md', w') ->
  handle E (S fuel) instruction args md w
  = handle E fuel instruction' args md' w'.
Proof. intros H. cbn [handle]. rewrite H. reflexivity. Qed.









End WithEnv.

End LoopFacts.

Module LoopSpec.
Import Loop LoopFacts.

(** C7, as stated, does not hold: mission mode is on, the proposal holds
    the command [ls] and is accepted, the stored policy is [never], and no
    command is run. *)
Lemma mission_never_runs_nothing :
  mission_mode (Sample.config true false false "never") = true /\
  Response.commands Sample.reply_command
    = [ {| command := Py.str "ls"; reason := Py.str "look around" |} ] /\
  exists w,
    handle (Sample.env Sample.reply_command) 1 Sample.go Sample.auto_yes None
      (Sample.world (Sample.config true false false "never") ∅)
      = Some (Return, w) /\
    commands_run (trace w) = [].
Proof. split; [reflexivity|]. split; [reflexivity|]. eexists. vm_compute. auto. Qed.

(** C7, amended.  In mission mode an accepted proposal runs none of its
    commands when the stored run policy is [never]; under any other stored
    policy it runs every command once, in list order, with the output
    captured, and the captured outputs are appended to the instruction the
    loop goes on with. *)
Theorem mission_commands_follow_policy
    (E : Env) (args : Args) (data : Response.t) (instruction : text)
    (w : World) :
  mission_mode (cfg w) = true ->
  (Py.text_eqb (run_policy (cfg w)) (Py.str "never") = true ->
   commands_run (trace (snd (accept E args data instruction w)))
   = commands_run (trace w)) /\
  (Py.text_eqb (run_policy (cfg w)) (Py.str "never") = false ->
   commands_run (trace (snd (accept E args data instruction w)))
   = commands_run (trace w)
     ++ map (fun c => (command c, true)) (Response.commands data) /\
   forall instruction' md,
     fst (accept E args data instruction w) = Again instruction' md ->
     instruction'
     = instruction ++ feedback E (Response.commands data) (files w)).
Proof.
  intros Hm. rewrite accept_commands_run. unfold run_commands.
  destruct (Response.commands data) as [|c rest] eqn:Hc.
  - cbn [truthy snd fst map feedback]. rewrite !app_nil_r.
    split; [auto|]. intros Hp. split; [reflexivity|].
    intros instruction' md H. apply accept_again in H.
    rewrite H, Hc. reflexivity.
  - cbn [truthy]. split; intros Hp.
    + rewrite Hp. reflexivity.
    + assert (fst (run_commands E args (Response.commands data) instruction w)
              = fst (run_all E (c :: rest) instruction w)) as Hrun.
      { unfold run_commands. rewrite Hc. cbn [truthy]. rewrite Hp, Hm.
        rewrite orb_true_r. reflexivity. }
      rewrite Hp, Hm, orb_true_r.
      destruct (run_all_spec E (c :: rest) instruction w)
        as (_ & _ & _ & Htr & Hfb).
      rewrite Htr, commands_run_app, commands_run_runs.
      split; [reflexivity|]. intros instruction' md H.
      apply accept_again in H. rewrite H, Hrun. apply Hfb, Hm.
Qed.

Lemma mission_commands_follow_policy_witness :
  mission_mode (cfg (Sample.world (Sample.config true false false "ask") ∅))
    = true /\
  Py.text_eqb
    (run_policy (cfg (Sample.world (Sample.config true false false "ask") ∅)))
    (Py.str "never") = false /\
  commands_run
    (trace (snd (accept (Sample.env Sample.reply_command) Sample.auto_yes
                   Sample.reply_command Sample.go
                   (Sample.world (Sample.config true false false "ask") ∅))))
  = commands_run
      (trace (Sample.world (Sample.config true false false "ask") ∅))
    ++ map (fun c => (command c, true))
         (Response.commands Sample.reply_command).
Proof.
  assert (mission_mode
            (cfg (Sample.world (Sample.config true false false "ask") ∅))
          = true) as H1 by reflexivity.
  assert (Py.text_eqb
            (run_policy
               (cfg (Sample.world (Sample.config true false false "ask") ∅)))
            (Py.str "never") = false) as H2 by reflexivity.
  repeat (split; [assumption|]).
  exact (proj1 (proj2 (mission_commands_follow_policy
                         (Sample.env Sample.reply_command) Sample.auto_yes
                         Sample.reply_command Sample.go _ H1) H2)).
Defined.

(** C8, as stated, does not hold: the reply asks for [notes.txt] while
    visibility is disabled, but the turn is neither in mission mode nor
    plan-only; the request is passed over, nothing is read, and the loop
    ends after this turn without a new THINKING cycle. *)
Lemma request_outside_mission_is_ignored :
  Response.request_files Sample.reply_request = [Py.str "notes.txt"] /\
  visibility_allowed (Sample.config false false false "ask") = false /\
  handle (Sample.env Sample.reply_request) 1 Sample.go Sample.auto_yes None
    (Sample.world (Sample.config false false false "ask") ∅)
  = Some (Return,
          {| cfg := Sample.config false false false "ask";
             files := ∅; calls := 1; reads := 0;
             trace := [Think Sample.go false false None] |}).
Proof. vm_compute. auto. Qed.

(** C8, amended.  In mission mode or in a plan-only turn, a reply that
    asks for files while visibility is disabled, or that asks for a web
    search or page (and for no file) while web browsing is disabled, does
    not end the turn: no file is read and the web is not accessed, and
    [handle] is called again, without mission data, on the working
    instruction followed by the permission notice. *)
Theorem permission_denied_continues
    (E : Env) (instruction : text) (args : Args) (md : option mission_data)
    (w w0 : World) (response_text raw : text) (data : Response.t) :
  dispatch E instruction args w = (false, w0) ->
  get_provider (active_provider (cfg w0)) = true ->
  provider_call E (calls w0) = Responds response_text raw ->
  parse E response_text = Parsed data ->
  mission_mode (cfg w0) || (arg_plan args || planning_mode (cfg w0)) = true ->
  let instruction1 := expand (cfg w0) instruction in
  let w1 :=
    snd (thinking E instruction1 (arg_plan args || planning_mode (cfg w0))
           (arg_fast args || fast_mode (cfg w0)) md w0) in
  accesses (trace w1) = accesses (trace w0) /\
  (truthy (Response.request_files data) = true ->
   visibility_allowed (cfg w0) = false ->
   turn E instruction args md w
   = (Again (instruction1
             ++ visibility_notice E (Response.request_files data)) None,
      w1) /\
   forall fuel,
     handle E (S fuel) instruction args md w
     = handle E fuel
         (instruction1 ++ visibility_notice E (Response.request_files data))
         args None w1) /\
  (truthy (Response.request_files data) = false ->
   truthy (Response.web_search data) || truthy (Response.web_browse data)
     = true ->
   web_browsing_allowed (cfg w0) = false ->
   turn E instruction args md w
   = (Again (instruction1 ++ web_notice) None, w1) /\
   forall fuel,
     handle E (S fuel) instruction args md w
     = handle E fuel (instruction1 ++ web_notice) args None w1).
Proof.
  intros Hd Hp Hr Hparse Hauto instruction1 w1.
  split.
  { unfold w1, thinking. cbn [snd log trace]. rewrite accesses_app.
    apply app_nil_r. }
  pose proof (turn_parsed E instruction args md w w0 _ _ _ Hd Hp Hr Hparse)
    as Hturn.
  cbv zeta in Hturn. fold instruction1 in Hturn. fold w1 in Hturn.
  assert (cfg w1 = cfg w0) as Hcfg by reflexivity.
  split.
  - intros Hreq Hvis.
    assert (turn E instruction args md w
            = (Again (instruction1
                      ++ visibility_notice E (Response.request_files data))
                 None, w1)) as Ht.
    { rewrite Hturn. unfold substep. rewrite Hcfg, Hreq, Hauto, Hvis.
      reflexivity. }
    split; [exact Ht|]. intros fuel. apply handle_again, Ht.
  - intros Hreq Hweb Hdis.
    assert (turn E instruction args md w
            = (Again (instruction1 ++ web_notice) None, w1)) as Ht.
    { rewrite Hturn. unfold substep. rewrite Hcfg, Hreq, Hauto, Hweb, Hdis.
      reflexivity. }
    split; [exact Ht|]. intros fuel. apply handle_again, Ht.
Qed.

Lemma permission_denied_continues_witness :
  let E := Sample.env Sample.reply_request in
  let w := Sample.world (Sample.config true false false "ask") ∅ in
  let w1 := snd (thinking E Sample.go false false None w) in
  dispatch E Sample.go Sample.auto_yes w = (false, w) /\
  get_provider (active_provider (cfg w)) = true /\
  provider_call E (calls w) = Responds (Sample.q "{'plan': 'p'}") [] /\
  parse E (Sample.q "{'plan': 'p'}") = Parsed Sample.reply_request /\
  mission_mode (cfg w)
    || (arg_plan Sample.auto_yes || planning_mode (cfg w)) = true /\
  truthy (Response.request_files Sample.reply_request) = true /\
  visibility_allowed (cfg w) = false /\
  accesses (trace w1) = accesses (trace w) /\
  turn E Sample.go Sample.auto_yes None w
  = (Again (Sample.go
            ++ visibility_notice E (Response.request_files Sample.reply_request))
       None, w1).
Proof.
  intros E w w1.
  assert (dispatch E Sample.go Sample.auto_yes w = (false, w)) as H1
    by reflexivity.
  assert (get_provider (active_provider (cfg w)) = true) as H2 by reflexivity.
  assert (provider_call E (calls w) = Responds (Sample.q "{'plan': 'p'}") [])
    as H3 by reflexivity.
  assert (parse E (Sample.q "{'plan': 'p'}") = Parsed Sample.reply_request)
    as H4 by (vm_compute; reflexivity).
  assert (mission_mode (cfg w)
          || (arg_plan Sample.auto_yes || planning_mode (cfg w)) = true)
    as H5 by reflexivity.
  assert (truthy (Response.request_files Sample.reply_request) = true) as H6
    by reflexivity.
  assert (visibility_allowed (cfg w) = false) as H7 by reflexivity.
  repeat (split; [assumption|]).
  pose proof (permission_denied_continues E Sample.go Sample.auto_yes None
                w w _ _ _ H1 H2 H3 H4 H5) as [Hacc [Hfiles _]].
  split; [exact Hacc|]. exact (proj1 (Hfiles H6 H7)).
Defined.

End LoopSpec.

(** ** Further properties of the decision loop *)

Module LoopExtra.
Import Loop LoopFacts.



Section WithEnv.

Variable E : Env.




End WithEnv.



Section Commands.

Variable E : Env.

Lemma run_asking_spec (commands : list Command) (w : World) :
  cfg (run_asking E commands w) = cfg w /\
  calls (run_asking E commands w) = calls w /\
  reads (run_asking E commands w) = reads w + length commands /\
  commands_run (trace (run_asking E commands w))
  = commands_run (trace w) ++ asked E commands (reads w).
Proof.
  revert w. induction commands as [|c rest IH]; intros w.
  - simpl. rewrite Nat.add_0_r, app_nil_r. auto.
  - cbn [run_asking asked length]. unfold input. cbv zeta. cbv beta iota.
    set (w1 := {| cfg := cfg w; files := files w; calls := calls w;
                  reads := S (reads w); trace := trace w |}).
    destruct (Py.text_eqb (Py.lower (console_input E (reads w))) (Py.str "y")).
    + rewrite run_command_spec. cbn [snd].
      set (w2 := log _ _).
      destruct (IH w2) as (H1 & H2 & H3 & H4).
      rewrite H1, H2, H3, H4.
      change (trace w2) with (trace w ++ [Run (command c) false]).
      change (reads w2) with (S (reads w)). change (cfg w2) with (cfg w).
      change (calls w2) with (calls w).
      rewrite commands_run_app, <- app_assoc.
      repeat split; auto; lia.
    + destruct (IH w1) as (H1 & H2 & H3 & H4).
      rewrite H1, H2, H3, H4.
      change (reads w1) with (S (reads w)).
      repeat split; auto; lia.
Qed.

(** Which commands of an accepted proposal are run is decided by the
    stored run policy first: [never] runs none; otherwise [always], the
    [--yes] flag or mission mode run every command once, in order, with
    captured output and without asking; otherwise the user is asked once
    per command and exactly the commands answered with [y] are run,
    uncaptured. *)
Theorem commands_follow_run_policy
    (args : Args) (data : Response.t) (instruction : text) (w : World) :
  let ran := commands_run (trace (snd (accept E args data instruction w))) in
  let policy := run_policy (cfg w) in
  (Py.text_eqb policy (Py.str "never") = true ->
   ran = commands_run (trace w)) /\
  (Py.text_eqb policy (Py.str "never") = false ->
   Py.text_eqb policy (Py.str "always") || arg_yes args
     || mission_mode (cfg w) = true ->
   ran = commands_run (trace w)
         ++ map (fun c => (command c, true)) (Response.commands data)) /\
  (Py.text_eqb policy (Py.str "never") = false ->
   Py.text_eqb policy (Py.str "always") || arg_yes args
     || mission_mode (cfg w) = false ->
   ran = commands_run (trace w) ++ asked E (Response.commands data) (reads w)).
Proof.
  cbv zeta. rewrite accept_commands_run. unfold run_commands.
  destruct (Response.commands data) as [|c rest].
  - cbn [truthy snd map asked]. rewrite !app_nil_r. auto.
  - cbn [truthy]. split; [intros ->; reflexivity|].
    split; intros -> ->.
    + destruct (run_all_spec E (c :: rest) instruction w)
        as (_ & _ & _ & Htr & _).
      rewrite Htr, commands_run_app, commands_run_runs. reflexivity.
    + cbn [snd]. apply run_asking_spec.
Qed.

End Commands.

Lemma commands_follow_run_policy_witness :
  Py.text_eqb (run_policy (Sample.config false false false "ask"))
    (Py.str "never") = false /\
  Py.text_eqb (run_policy (Sample.config false false false "ask"))
    (Py.str "always")
    || arg_yes Sample.auto_yes
    || mission_mode (Sample.config false false false "ask") = true /\
  commands_run
    (trace (snd (accept (Sample.env Sample.reply_command) Sample.auto_yes
                   Sample.reply_command Sample.go
                   (Sample.world (Sample.config false false false "ask") ∅))))
  = [] ++ map (fun c => (command c, true))
            (Response.commands Sample.reply_command).
Proof.
  assert (Py.text_eqb (run_policy (Sample.config false false false "ask"))
            (Py.str "never") = false) as H1 by reflexivity.
  assert (Py.text_eqb (run_policy (Sample.config false false false "ask"))
            (Py.str "always")
          || arg_yes Sample.auto_yes
          || mission_mode (Sample.config false false false "ask") = true)
    as H2 by reflexivity.
  repeat (split; [assumption|]).
  exact (proj1 (proj2 (commands_follow_run_policy
                         (Sample.env Sample.reply_command) Sample.auto_yes
                         Sample.reply_command Sample.go
                         (Sample.world (Sample.config false false false "ask")
                            ∅))) H1 H2).
Defined.

Section Turns.

Variable E : Env.

(** A provider call that fails or is interrupted ends [handle] at once:
    nothing is retried, and apart from the call itself the state is
    untouched: same configuration, same files, no console line read. *)
Theorem provider_failure_ends_turn
    (instruction : text) (args : Args) (md : option mission_data)
    (w w0 : World) :
  dispatch E instruction args w = (false, w0) ->
  get_provider (active_provider (cfg w0)) = true ->
  provider_call E (calls w0) = ProviderError
  \/ provider_call E (calls w0) = KeyboardInterrupt ->
  exists w1,
    (forall fuel,
       handle E (S fuel) instruction args md w = Some (Return, w1)) /\
    cfg w1 = cfg w0 /\ files w1 = files w0 /\ reads w1 = reads w0 /\
    calls w1 = S (calls w0) /\
    trace w1
    = trace w0
      ++ [Think (expand (cfg w0) instruction)
            (arg_plan args || planning_mode (cfg w0))
            (arg_fast args || fast_mode (cfg w0)) md].
Proof.
  intros Hd Hp Hr.
  exists (snd (thinking E (expand (cfg w0) instruction)
                 (arg_plan args || planning_mode (cfg w0))
                 (arg_fast args || fast_mode (cfg w0)) md w0)).
  split; [|repeat split; reflexivity].
  intros fuel. cbn [handle]. unfold turn. rewrite Hd, Hp. cbn [negb].
  unfold thinking. destruct Hr as [-> | ->]; reflexivity.
Qed.

(** A reply from which no JSON can be extracted, neither directly nor
    from a [```json] fence, is not acted on: no file is written and no
    command is run.  In mission mode [handle] is called again on the same
    instruction with the error as mission data; otherwise it returns. *)
Theorem unparsable_reply_is_not_acted_on
    (instruction : text) (args : Args) (md : option mission_data)
    (w w0 : World) (response_text raw : text) :
  dispatch E instruction args w = (false, w0) ->
  get_provider (active_provider (cfg w0)) = true ->
  provider_call E (calls w0) = Responds response_text raw ->
  Json.loads_ok (Main.extract_json response_text) = false ->
  Py.contains fence_json response_text = false ->
  exists w1,
    files w1 = files w0 /\
    commands_run (trace w1) = commands_run (trace w0) /\
    (mission_mode (cfg w0) = true ->
     forall fuel,
       handle E (S fuel) instruction args md w
       = handle E fuel (expand (cfg w0) instruction) args
           (Some (MError (Py.str "Response was not valid JSON."))) w1) /\
    (mission_mode (cfg w0) = false ->
     forall fuel,
       handle E (S fuel) instruction args md w = Some (Return, w1)).
Proof.
  intros Hd Hp Hr Hbad Hfence.
  exists (snd (thinking E (expand (cfg w0) instruction)
                 (arg_plan args || planning_mode (cfg w0))
                 (arg_fast args || fast_mode (cfg w0)) md w0)).
  split; [reflexivity|]. split.
  { cbn [thinking snd log trace]. rewrite commands_run_app. apply app_nil_r. }
  assert (parse E response_text
          = Unparsed (Py.str "Response was not valid JSON.")) as Hparse
    by (unfold parse; cbv zeta; rewrite Hbad, Hfence; reflexivity).
  split; intros Hm fuel; cbn [handle]; unfold turn; rewrite Hd, Hp;
    cbn [negb]; unfold thinking; rewrite Hr, Hparse; cbn [cfg log];
    rewrite Hm; reflexivity.
Qed.



End Turns.

Lemma provider_failure_ends_turn_witness :
  dispatch Sample.env_failing Sample.go Sample.auto_yes
    (Sample.world (Sample.config true false false "ask") Sample.fs_hello)
  = (false, Sample.world (Sample.config true false false "ask") Sample.fs_hello)
  /\
  get_provider (active_provider (Sample.config true false false "ask"))
    = true /\
  (provider_call Sample.env_failing 0 = ProviderError
   \/ provider_call Sample.env_failing 0 = KeyboardInterrupt) /\
  exists w1,
    (forall fuel,
       handle Sample.env_failing (S fuel) Sample.go Sample.auto_yes None
         (Sample.world (Sample.config true false false "ask") Sample.fs_hello)
       = Some (Return, w1)) /\
    cfg w1 = Sample.config true false false "ask" /\
    files w1 = Sample.fs_hello /\ reads w1 = 0 /\ calls w1 = 1 /\
    trace w1 = [] ++ [Think Sample.go false false None].
Proof.
  assert (dispatch Sample.env_failing Sample.go Sample.auto_yes
            (Sample.world (Sample.config true false false "ask")
               Sample.fs_hello)
          = (false, Sample.world (Sample.config true false false "ask")
                      Sample.fs_hello)) as H1 by reflexivity.
  assert (get_provider (active_provider (Sample.config true false false "ask"))
          = true) as H2 by reflexivity.
  assert (provider_call Sample.env_failing 0 = ProviderError
          \/ provider_call Sample.env_failing 0 = KeyboardInterrupt) as H3
    by (left; reflexivity).
  repeat (split; [assumption|]).
  exact (provider_failure_ends_turn Sample.env_failing Sample.go
           Sample.auto_yes None _ _ H1 H2 H3).
Defined.

Lemma unparsable_reply_is_not_acted_on_witness :
  dispatch Sample.env_prose Sample.go Sample.auto_yes
    (Sample.world (Sample.config false false false "ask") Sample.fs_hello)
  = (false, Sample.world (Sample.config false false false "ask")
              Sample.fs_hello) /\
  get_provider (active_provider (Sample.config false false false "ask"))
    = true /\
  provider_call Sample.env_prose 0
    = Responds (Py.str "I cannot help with that.") [] /\
  Json.loads_ok (Main.extract_json (Py.str "I cannot help with that."))
    = false /\
  Py.contains fence_json (Py.str "I cannot help with that.") = false /\
  exists w1,
    files w1 = Sample.fs_hello /\
    commands_run (trace w1) = commands_run [] /\
    (mission_mode (Sample.config false false false "ask") = true ->
     forall fuel,
       handle Sample.env_prose (S fuel) Sample.go Sample.auto_yes None
         (Sample.world (Sample.config false false false "ask") Sample.fs_hello)
       = handle Sample.env_prose fuel
           (expand (Sample.config false false false "ask") Sample.go)
           Sample.auto_yes
           (Some (MError (Py.str "Response was not valid JSON."))) w1) /\
    (mission_mode (Sample.config false false false "ask") = false ->
     forall fuel,
       handle Sample.env_prose (S fuel) Sample.go Sample.auto_yes None
         (Sample.world (Sample.config false false false "ask") Sample.fs_hello)
       = Some (Return, w1)).
Proof.
  assert (dispatch Sample.env_prose Sample.go Sample.auto_yes
            (Sample.world (Sample.config false false false "ask")
               Sample.fs_hello)
          = (false, Sample.world (Sample.config false false false "ask")
                      Sample.fs_hello)) as H1 by reflexivity.
  assert (get_provider (active_provider (Sample.config false false false "ask"))
          = true) as H2 by reflexivity.
  assert (provider_call Sample.env_prose 0
          = Responds (Py.str "I cannot help with that.") []) as H3
    by reflexivity.
  assert (Json.loads_ok (Main.extract_json (Py.str "I cannot help with that."))
          = false) as H4 by (vm_compute; reflexivity).
  assert (Py.contains fence_json (Py.str "I cannot help with that.") = false)
    as H5 by (vm_compute; reflexivity).
  repeat (split; [assumption|]).
  exact (unparsable_reply_is_not_acted_on Sample.env_prose Sample.go
           Sample.auto_yes None _ _ _ _ H1 H2 H3 H4 H5).
Defined.



End LoopExtra.

(** ** Further properties of the change applier *)

Module ApplierExtra.
Import FS FSFacts PyFacts ApplierFacts.

(** Applying a batch made of two parts is applying the first part and, if
    it succeeded, the second part to the filesystem it left; if the first
    part raised, the second part is not started and the batch ends with
    the same exception and the same filesystem. *)
Theorem apply_concat (first second : list Change) (fs : FS.t) :
  (forall fs1, Applier.apply first fs = (Ok tt, fs1) ->
     Applier.apply (first ++ second) fs = Applier.apply second fs1) /\
  (forall e fs1, Applier.apply first fs = (Err e, fs1) ->
     Applier.apply (first ++ second) fs = (Err e, fs1)).
Proof.
  split; [intros fs1 H | intros e fs1 H]; rewrite apply_app, H; reflexivity.
Qed.

Lemma apply_concat_witness :
  Applier.apply [Sample.create_b] Sample.fs_hello
  = (Ok tt, <[ [Py.str "b.txt"] := File (Py.str "y") ]> Sample.fs_hello) /\
  Applier.apply ([Sample.create_b] ++ [Sample.foo_to_bar]) Sample.fs_hello
  = Applier.apply [Sample.foo_to_bar]
      (<[ [Py.str "b.txt"] := File (Py.str "y") ]> Sample.fs_hello).
Proof.
  assert (Applier.apply [Sample.create_b] Sample.fs_hello
          = (Ok tt, <[ [Py.str "b.txt"] := File (Py.str "y") ]> Sample.fs_hello))
    as H by (vm_compute; reflexivity).
  split; [exact H|].
  exact (proj1 (apply_concat [Sample.create_b] [Sample.foo_to_bar]
                  Sample.fs_hello) _ H).
Defined.

(** What one step may do to an entry of the store: leave it, make a
    directory where nothing was, or put a file where no directory was. *)
Lemma write_text_keeps (fs fs' : FS.t) (p : path) (d : text) (cp : path) :
  FS.write_text fs p d = Ok fs' ->
  (fs !! cp = Some Dir -> fs' !! cp = Some Dir) /\
  (is_Some (fs !! cp) -> is_Some (fs' !! cp)).
Proof.
  intros H. apply write_text_inv in H as (k & _ & _ & Hnd & ->).
  destruct (decide (k = cp)) as [->|Hne].
  - rewrite lookup_insert_eq. split; [congruence | eauto].
  - rewrite lookup_insert_ne by exact Hne. auto.
Qed.

Lemma extends_keeps (fs fs' : FS.t) (cp : path) :
  extends_by_dirs fs fs' ->
  (fs !! cp = Some Dir -> fs' !! cp = Some Dir) /\
  (is_Some (fs !! cp) -> is_Some (fs' !! cp)).
Proof.
  intros H. destruct (H cp) as [-> | [E1 E2]]; [auto|].
  rewrite E1, E2. split; [discriminate | eauto].
Qed.

Lemma apply_one_keeps (c : Change) (fs fs' : FS.t) (r : result exn unit)
    (cp : path) :
  Applier.apply_one c fs = (r, fs') ->
  (fs !! cp = Some Dir -> fs' !! cp = Some Dir) /\
  (is_Some (fs !! cp) -> is_Some (fs' !! cp)).
Proof.
  rewrite apply_one_unfold. cbv zeta.
  destruct (FS.mkdir_parents fs _) as [fs1|e] eqn:Hm;
    [|intros [= _ <-]; auto].
  pose proof (extends_keeps _ _ cp (mkdir_parents_extends _ _ _ Hm))
    as [Hd Hs].
  assert (forall d,
            written fs1 (Path (file c)) d = (r, fs') ->
            (fs !! cp = Some Dir -> fs' !! cp = Some Dir) /\
            (is_Some (fs !! cp) -> is_Some (fs' !! cp))) as Hw.
  { intros d. unfold written.
    destruct (FS.write_text fs1 _ d) as [fs2|e] eqn:Hwr; intros [= _ <-];
      [|auto].
    destruct (write_text_keeps _ _ _ _ cp Hwr). auto. }
  destruct (FS.exists_ fs1 _); [|apply Hw].
  destruct (FS.read_text fs1 _) as [t|e]; [|intros [= _ <-]; auto].
  destruct (Applier.truthy (original c)); [|apply Hw].
  destruct (negb _); [intros [= _ <-]; auto | apply Hw].
Qed.

(** Whether it succeeds or raises, [apply] never removes an entry of the
    filesystem and never replaces a directory: every path that existed
    still exists, and every directory is still a directory. *)
Theorem apply_never_removes
    (changes : list Change) (fs fs' : FS.t) (r : result exn unit) (cp : path) :
  Applier.apply changes fs = (r, fs') ->
  (fs !! cp = Some Dir -> fs' !! cp = Some Dir) /\
  (is_Some (fs !! cp) -> is_Some (fs' !! cp)).
Proof.
  revert fs. induction changes as [|c rest IH]; intros fs H.
  - injection H as _ <-. auto.
  - rewrite apply_cons in H.
    destruct (Applier.apply_one c fs) as [[[]|e] fs1] eqn:E.
    + destruct (apply_one_keeps _ _ _ _ cp E), (IH _ H). auto.
    + injection H as _ <-. eapply apply_one_keeps, E.
Qed.

Lemma apply_never_removes_witness :
  Applier.apply [Sample.create_b; Sample.zzz_to_bar] Sample.fs_src
  = (Err (RuntimeError (Py.str "Mismatch in a.txt")),
     <[ [Py.str "b.txt"] := File (Py.str "y") ]> Sample.fs_src) /\
  (Sample.fs_src !! [Py.str "src"] = Some Dir ->
   (<[ [Py.str "b.txt"] := File (Py.str "y") ]> Sample.fs_src)
     !! [Py.str "src"] = Some Dir) /\
  (is_Some (Sample.fs_src !! [Py.str "src"]) ->
   is_Some ((<[ [Py.str "b.txt"] := File (Py.str "y") ]> Sample.fs_src)
              !! [Py.str "src"])).
Proof.
  assert (Applier.apply [Sample.create_b; Sample.zzz_to_bar] Sample.fs_src
          = (Err (RuntimeError (Py.str "Mismatch in a.txt")),
             <[ [Py.str "b.txt"] := File (Py.str "y") ]> Sample.fs_src))
    as H by (vm_compute; reflexivity).
  split; [exact H|].
  exact (apply_never_removes _ _ _ _ [Py.str "src"] H).
Defined.

(** A change whose path names an existing directory raises
    [IsADirectoryError], not the mismatch error, whatever [original] is;
    nothing is written and the rest of the batch is not attempted. *)
Theorem apply_directory_target
    (c : Change) (rest : list Change) (fs : FS.t) :
  stat fs (Path (file c)) = Ok Dir ->
  Applier.apply (c :: rest) fs = (Err (OSErr IsADirectoryError), fs).
Proof.
  intros Hs. rewrite apply_cons, apply_one_unfold. cbv zeta.
  assert (exists cp, locate fs (Path (file c)) = Ok cp) as [cp Hl].
  { unfold stat in Hs. destruct (locate fs _); [eauto | discriminate]. }
  rewrite (mkdir_parents_located _ _ _ Hl).
  unfold FS.exists_, FS.read_text. rewrite Hs. reflexivity.
Qed.

Lemma apply_directory_target_witness :
  stat Sample.fs_src
    (Path (file {| file := Py.str "src"; original := [];
                   edited := Py.str "x" |})) = Ok Dir /\
  Applier.apply
    ({| file := Py.str "src"; original := []; edited := Py.str "x" |}
     :: [Sample.create_b]) Sample.fs_src
  = (Err (OSErr IsADirectoryError), Sample.fs_src).
Proof.
  assert (stat Sample.fs_src
            (Path (file {| file := Py.str "src"; original := [];
                           edited := Py.str "x" |})) = Ok Dir) as H
    by (vm_compute; reflexivity).
  split; [exact H|].
  exact (apply_directory_target _ [Sample.create_b] Sample.fs_src H).
Defined.

Lemma apply_one_full_write_inv (c : Change) (fs fs' : FS.t) :
  Applier.truthy (original c) = false ->
  Applier.apply_one c fs = (Ok tt, fs') ->
  exists fs1, FS.write_text fs1 (Path (file c)) (edited c) = Ok fs'.
Proof.
  intros Ht. rewrite apply_one_unfold. cbv zeta. rewrite Ht. unfold written.
  destruct (FS.mkdir_parents fs _) as [fs1|e]; [|discriminate].
  destruct (FS.exists_ fs1 _).
  - destruct (FS.read_text fs1 _); [|discriminate].
    destruct (FS.write_text fs1 _ _) eqn:Hw; [|discriminate].
    intros [= <-]. eauto.
  - destruct (FS.write_text fs1 _ _) eqn:Hw; [|discriminate].
    intros [= <-]. eauto.
Qed.

(** A full-content write (empty [original]) that has succeeded can be
    applied again: it succeeds again and changes nothing. *)
Theorem apply_full_write_again (c : Change) (fs fs' : FS.t) :
  Applier.truthy (original c) = false ->
  Applier.apply [c] fs = (Ok tt, fs') ->
  Applier.apply [c] fs' = (Ok tt, fs').
Proof.
  intros Ht H. rewrite apply_single in *.
  destruct (apply_one_full_write_inv _ _ _ Ht H) as [fs1 Hw].
  pose proof (read_text_written _ _ _ _ Hw) as Hr.
  destruct (apply_one_existing c fs' _ Hr) as (cp & _ & Hf & ->).
  rewrite Ht. f_equal. apply insert_id, Hf.
Qed.

Lemma apply_full_write_again_witness :
  Applier.truthy (original Sample.create_x) = false /\
  Applier.apply [Sample.create_x] Sample.fs_hello
  = (Ok tt, {[ [Sample.a_txt] := File (Py.str "x") ]}) /\
  Applier.apply [Sample.create_x] {[ [Sample.a_txt] := File (Py.str "x") ]}
  = (Ok tt, {[ [Sample.a_txt] := File (Py.str "x") ]}).
Proof.
  assert (Applier.truthy (original Sample.create_x) = false) as H1
    by reflexivity.
  assert (Applier.apply [Sample.create_x] Sample.fs_hello
          = (Ok tt, {[ [Sample.a_txt] := File (Py.str "x") ]})) as H2
    by (vm_compute; reflexivity).
  repeat (split; [assumption|]).
  exact (apply_full_write_again Sample.create_x Sample.fs_hello _ H1 H2).
Defined.

End ApplierExtra.

(** ** Further properties of [extract_json] *)

Module ExtractExtra.
Import Main JsonFacts MainFacts.

Lemma find_none (sub s : text) :
  Py.contains sub s = false -> Py.find sub s = None.
Proof.
  induction s as [|a s IH]; simpl; intros H;
    apply orb_false_iff in H as [-> H]; [reflexivity|].
  rewrite (IH H). reflexivity.
Qed.

Lemma slice_all (s : text) (a : nat) :
  Py.slice_from s a = Py.slice s a (length s).
Proof. unfold Py.slice_from, Py.slice. rewrite firstn_all. reflexivity. Qed.

(** [extract_json] never makes up text: without an opening brace the
    input is returned as it is, and otherwise the result is a slice of the
    input that starts at its first opening brace. *)
Theorem extract_json_is_slice (txt : text) :
  (Py.contains lbrace txt = false -> extract_json txt = txt) /\
  (forall start, Py.find lbrace txt = Some start ->
     exists stop, extract_json txt = Py.slice txt start stop).
Proof.
  split.
  - intros H. unfold extract_json. rewrite (find_none _ _ H). reflexivity.
  - intros start Hf.
    destruct (extract_json_spec _ _ Hf) as [[_ ->]|(i & _ & _ & -> & _)].
    + unfold fallback. destruct (Py.contains rbrace txt).
      * destruct (Py.rfind rbrace txt); eauto.
      * exists (length txt). apply slice_all.
    + exists (i + 1). reflexivity.
Qed.

Lemma extract_json_is_slice_witness :
  Py.find lbrace Sample.prose_braces = Some 4 /\
  exists stop,
    extract_json Sample.prose_braces = Py.slice Sample.prose_braces 4 stop.
Proof.
  assert (Py.find lbrace Sample.prose_braces = Some 4) as H
    by (vm_compute; reflexivity).
  split; [exact H|].
  exact (proj2 (extract_json_is_slice Sample.prose_braces) 4 H).
Defined.

Lemma rfind_char_at (c : ascii) (s : text) (j : nat) :
  Py.rfind [c] s = Some j -> Py.char_at s j = Some c.
Proof.
  revert j. induction s as [|a s IH]; intros j; [discriminate|].
  cbn [Py.rfind]. destruct (Py.rfind [c] s) as [i|].
  - intros [= <-]. apply IH. reflexivity.
  - destruct (Py.startswith [c] (a :: s)) eqn:E; [|discriminate].
    intros [= <-]. simpl in E. apply andb_true_iff in E as [E _].
    apply PyFacts.ch_eqb_eq in E. subst a. reflexivity.
Qed.

Lemma rfind_snoc (c : ascii) (s : text) :
  Py.rfind [c] (s ++ [c]) = Some (length s).
Proof.
  induction s as [|a s IH].
  - cbn. rewrite PyFacts.ch_eqb_refl. reflexivity.
  - cbn [app Py.rfind length]. rewrite IH. reflexivity.
Qed.

Lemma char_at_contains (c : ascii) (s : text) (i : nat) :
  Py.char_at s i = Some c -> Py.contains [c] s = true.
Proof.
  revert i. induction s as [|a s IH]; intros [|i] H; try discriminate.
  - injection H as ->. simpl. rewrite PyFacts.ch_eqb_refl. reflexivity.
  - simpl. rewrite (IH i H). apply orb_true_r.
Qed.

Lemma contains_app_r (sub pre s : text) :
  Py.contains sub s = true -> Py.contains sub (pre ++ s) = true.
Proof.
  intros H. apply PyFacts.contains_inv in H as (a & b & ->).
  rewrite app_assoc. apply PyFacts.contains_app.
Qed.

Lemma char_at_firstn (s : text) (n i : nat) :
  i < n -> Py.char_at (firstn n s) i = Py.char_at s i.
Proof.
  revert n i. induction s as [|a s IH]; intros [|n] [|i] H; simpl;
    try reflexivity; try lia.
  apply IH. lia.
Qed.

(** The text from the first opening brace on. *)
Lemma find_lbrace_split (txt : text) (start : nat) :
  Py.find lbrace txt = Some start ->
  exists pre rest,
    txt = pre ++ "{"%char :: rest /\ length pre = start.
Proof.
  intros H. apply PyFacts.find_split in H as (pre & post & -> & <-).
  exists pre, post. auto.
Qed.

(** A text that starts with an opening brace, has no valid candidate and
    either has no closing brace or ends with one is returned whole. *)
Lemma extract_json_self (r : text) :
  Py.startswith lbrace r = true ->
  (forall i, closing r 0 i -> Json.loads_ok (candidate r 0 i) = false) ->
  Py.contains rbrace r = false \/ (exists s, r = s ++ ["}"%char]) ->
  extract_json r = r.
Proof.
  intros Hs Hnone Hend.
  assert (Py.find lbrace r = Some 0) as Hf
    by (rewrite PyFacts.find_unfold, Hs; reflexivity).
  destruct (extract_json_spec _ _ Hf) as [[_ ->]|(i & Hi & Hok & _)].
  - unfold fallback. destruct Hend as [-> | [s ->]].
    + reflexivity.
    + change rbrace with ["}"%char].
      pose proof (PyFacts.contains_app ["}"%char] s []) as Hc.
      rewrite app_nil_r in Hc. rewrite Hc, rfind_snoc.
      unfold Py.slice. rewrite firstn_all2 by (rewrite length_app; simpl; lia).
      reflexivity.
  - rewrite (Hnone _ Hi) in Hok. discriminate.
Qed.

Lemma closing_firstn (pre body : text) (n i : nat) :
  closing (firstn n body) 0 i ->
  closing (pre ++ body) (length pre) (length pre + i) /\
  candidate (firstn n body) 0 i
  = candidate (pre ++ body) (length pre) (length pre + i).
Proof.
  intros [[Hi0 Hin] Hc].
  pose proof (length_firstn n body) as Hlen.
  assert (i < n) as Hn by lia.
  rewrite (char_at_firstn _ _ _ Hn) in Hc.
  split; [split|].
  - rewrite length_app. lia.
  - rewrite char_at_app. exact Hc.
  - rewrite candidate_app. unfold candidate, Py.slice. cbn [skipn Nat.add].
    rewrite firstn_firstn, Nat.min_l by lia. reflexivity.
Qed.

(** A valid text from an opening to a closing brace is returned whole. *)
Lemma extract_json_valid_self (s : text) :
  Py.startswith lbrace (s ++ ["}"%char]) = true ->
  1 <= length s ->
  Json.loads_ok (s ++ ["}"%char]) = true ->
  extract_json (s ++ ["}"%char]) = s ++ ["}"%char].
Proof.
  intros Hs Hlen Hok. set (r := s ++ ["}"%char]) in *.
  assert (Py.find lbrace r = Some 0) as Hf
    by (rewrite PyFacts.find_unfold, Hs; reflexivity).
  assert (length r = S (length s)) as Hr
    by (unfold r; rewrite length_app; simpl; lia).
  assert (closing r 0 (length s)) as Hcl.
  { split; [lia|]. unfold r, Py.char_at.
    rewrite nth_error_app2, Nat.sub_diag by lia. reflexivity. }
  assert (candidate r 0 (length s) = r) as Hcand.
  { unfold candidate, Py.slice. cbn [skipn]. apply firstn_all2. lia. }
  destruct (extract_json_spec _ _ Hf) as [[Hnone _]|(i & Hi & _ & -> & Hmax)].
  - specialize (Hnone _ Hcl). rewrite Hcand, Hok in Hnone. discriminate.
  - assert (length s <= i)
      by (apply Hmax; [exact Hcl | rewrite Hcand; exact Hok]).
    destruct Hi as [[_ Hi] _].
    replace i with (length s) by lia. exact Hcand.
Qed.

(** Extracting twice is extracting once. *)
Theorem extract_json_idempotent (txt : text) :
  extract_json (extract_json txt) = extract_json txt.
Proof.
  destruct (Py.find lbrace txt) as [start|] eqn:Hf.
  2: { assert (extract_json txt = txt) as E
         by (unfold extract_json; rewrite Hf; reflexivity).
       rewrite !E. reflexivity. }
  destruct (find_lbrace_split _ _ Hf) as (pre & rest & -> & <-).
  set (body := "{"%char :: rest) in *.
  destruct (extract_json_spec _ _ Hf) as [[Hnone ->]|(i & Hi & Hok & -> & _)].
  - assert (forall n i, closing (firstn n body) 0 i ->
              Json.loads_ok (candidate (firstn n body) 0 i) = false) as Hn.
    { intros n i Hi. destruct (closing_firstn pre body n i Hi) as [Hc ->].
      apply Hnone, Hc. }
    unfold fallback. destruct (Py.contains rbrace (pre ++ body)) eqn:Hc.
    + destruct (Py.rfind rbrace (pre ++ body)) as [j|] eqn:Hr.
      2: { unfold Py.slice. cbn [firstn]. rewrite skipn_nil. reflexivity. }
      apply rfind_char_at in Hr.
      destruct (le_lt_dec (length pre) j) as [Hle|Hlt].
      * replace j with (length pre + (j - length pre)) in * by lia.
        set (k := j - length pre) in *.
        rewrite char_at_app in Hr.
        fold (candidate (pre ++ body) (length pre) (length pre + k)).
        rewrite candidate_app, Nat.add_1_r.
        apply extract_json_self.
        -- reflexivity.
        -- apply Hn.
        -- right. exists (firstn k body). apply firstn_snoc, Hr.
      * unfold Py.slice. rewrite skipn_all2; [reflexivity|].
        rewrite length_firstn. lia.
    + unfold Py.slice_from. rewrite skipn_app, skipn_all, Nat.sub_diag.
      change (drop 0 body) with body. cbn [app].
      apply extract_json_self.
      * reflexivity.
      * intros i Hi. rewrite <- (firstn_all body) in Hi |- *.
        apply Hn, Hi.
      * left. destruct (Py.contains rbrace body) eqn:Hb; [|reflexivity].
        rewrite (contains_app_r _ pre _ Hb) in Hc. discriminate.
  - destruct Hi as [[Hi1 Hi2] Hci].
    replace i with (length pre + (i - length pre)) in * by lia.
    set (k := i - length pre) in *.
    rewrite char_at_app in Hci. rewrite candidate_app in *.
    rewrite Nat.add_1_r in *.
    assert (1 <= k) as Hk by lia.
    rewrite (firstn_snoc _ _ _ Hci) in *.
    apply extract_json_valid_self; [|rewrite length_firstn; simpl; lia|exact Hok].
    destruct k; [lia | reflexivity].
Qed.

End ExtractExtra.

(** ** [calculate_cost] *)

Module CostFacts.
Import Cost.

Lemma contains_prefix (a b s : text) :
  Py.contains (a ++ b) s = true -> Py.contains a s = true.
Proof.
  intros H. apply PyFacts.contains_inv in H as (pre & post & ->).
  rewrite <- app_assoc. apply PyFacts.contains_app.
Qed.

(** The entry [gpt-4o-mini] of the table is never used: a model name that
    contains it also contains [gpt-4o], which comes first, so such a model
    is priced as [gpt-4o]. *)
Theorem mini_is_priced_as_gpt_4o (model_name : text) (i o : Z) :
  pricing_key model_name <> Some "gpt-4o-mini"%string /\
  (Py.contains (Py.str "gpt-4o-mini") model_name = true ->
   calculate_cost model_name i o = Priced "2.50" "10.00" i o).
Proof.
  assert (Py.contains (Py.str "gpt-4o-mini") model_name = true ->
          Py.contains (Py.str "gpt-4o") model_name = true) as Hsub
    by apply (contains_prefix (Py.str "gpt-4o") (Py.str "-mini")).
  unfold pricing_key, calculate_cost, PRICING. cbn [List.find fst].
  destruct (Py.contains (Py.str "gpt-4o") model_name) eqn:H1.
  - split; [discriminate | reflexivity].
  - destruct (Py.contains (Py.str "gpt-4o-mini") model_name) eqn:H2.
    + specialize (Hsub eq_refl). discriminate.
    + split; [|discriminate].
      repeat (destruct (Py.contains _ model_name); [discriminate|]).
      discriminate.
Qed.

Lemma mini_is_priced_as_gpt_4o_witness :
  Py.contains (Py.str "gpt-4o-mini") (Py.str "openai/gpt-4o-mini-2024") = true
  /\
  calculate_cost (Py.str "openai/gpt-4o-mini-2024") 1000 2000
  = Priced "2.50" "10.00" 1000 2000.
Proof.
  assert (Py.contains (Py.str "gpt-4o-mini") (Py.str "openai/gpt-4o-mini-2024")
          = true) as H by (vm_compute; reflexivity).
  split; [exact H|].
  exact (proj2 (mini_is_priced_as_gpt_4o (Py.str "openai/gpt-4o-mini-2024")
                  1000 2000) H).
Defined.

Lemma member_inv (s : text) (l : list string) :
  Loop.member s l = true -> exists x, In x l /\ s = Py.str x.
Proof.
  unfold Loop.member. intros H. apply existsb_exists in H as (x & Hin & Hx).
  apply PyFacts.text_eqb_eq in Hx. eauto.
Qed.

(** [handle] passes the name of the active provider, not of the model: of
    the five names [get_provider] accepts only [deepseek] and [ollama] are
    found in the table, so for [openai], [anthropic] and [gemini] the cost
    is [0.0] whatever the token counts. *)
Theorem cost_of_provider_names (name : text) (i o : Z) :
  Loop.get_provider name = true ->
  calculate_cost name i o =
  if Py.text_eqb name (Py.str "deepseek") then Priced "0.14" "0.28" i o
  else if Py.text_eqb name (Py.str "ollama") then Priced "0.0" "0.0" i o
  else Zero.
Proof.
  intros H. apply member_inv in H as (x & Hin & ->).
  cbn [In] in Hin.
  destruct Hin as [<- | [<- | [<- | [<- | [<- | []]]]]]; vm_compute;
    reflexivity.
Qed.

Lemma cost_of_provider_names_witness :
  Loop.get_provider (Py.str "openai") = true /\
  calculate_cost (Py.str "openai") 120000 4000 =
  if Py.text_eqb (Py.str "openai") (Py.str "deepseek")
  then Priced "0.14" "0.28" 120000 4000
  else if Py.text_eqb (Py.str "openai") (Py.str "ollama")
       then Priced "0.0" "0.0" 120000 4000
       else Zero.
Proof.
  assert (Loop.get_provider (Py.str "openai") = true) as H by reflexivity.
  split; [exact H|].
  exact (cost_of_provider_names (Py.str "openai") 120000 4000 H).
Defined.

End CostFacts.
